(** * RackNerd exporter: a shallow embedding of [racknerd_exporter.py]

    The development follows the layout of the Python module:

    - [Py] and [Obj]: the Python builtins the module relies on
      ([str.strip], [in], [int], [float], [dict.get], truthiness), over
      ASCII text, binary64 floats and the objects [json.loads] builds;
    - [Re]: the two regular expressions of the module, as matchers;
    - [Client]: [RackNerdClient], a state monad over the session flag, the
      replies the panel is going to give, the requests issued and the log;
    - [Collector]: [RackNerdCollector.parse_size] and [collect];
    - [Panel]: sample replies of the panel, the inputs of the examples.

    Text is ASCII: a character is a byte below 128, and the Unicode digits
    and spaces that [\d], [\s], [strip], [int] and [float] also accept are
    outside the model, as is the limit some Python versions put on the
    number of digits [int] reads.  Floats are IEEE binary64 values as
    [spec_float], rounded to nearest with ties to even.  The panel is
    outside the repository: an HTTP response is given with the results of
    the library parsers on its body ([response.json()], [BeautifulSoup]),
    and the panel itself by the sequence of its replies. *)

From Stdlib Require Import ZArith List String Ascii Bool Lia Wf_nat.
From Stdlib Require Import SpecFloat.
Import ListNotations.

Set Warnings "-register-all".

Local Open Scope string_scope.
Local Open Scope Z_scope.

(** ** Exceptions and fallible results *)

Inductive exn : Type :=
| ValueError
| TypeError
| AttributeError
| OverflowError
| HTTPError
| ConnectionError.

Inductive result (A : Type) : Type :=
| Ok (a : A)
| Raise (e : exn).
Arguments Ok {A} a.
Arguments Raise {A} e.

Definition rbind {A B} (r : result A) (k : A -> result B) : result B :=
  match r with
  | Ok a => k a
  | Raise e => Raise e
  end.

Declare Scope result_scope.
Delimit Scope result_scope with result.
Notation "x <- r ;; k" := (rbind r (fun x => k))
  (at level 61, r at next level, right associativity) : result_scope.

(** ** Python builtins *)

Module Py.

Definition float := spec_float.
Definition prec : Z := 53.
Definition emax : Z := 1024.

Definition fzero : float := S754_zero false.
Definition fmul : float -> float -> float := SFmul prec emax.

Definition code (c : ascii) : N := N_of_ascii c.

Definition is_digit (c : ascii) : bool :=
  (48 <=? code c)%N && (code c <=? 57)%N.

Definition digit_val (c : ascii) : Z := Z.of_N (code c) - 48.

(** [str.isspace] on ASCII, the set used by [str.strip] and by [\s]. *)
Definition isspace (c : ascii) : bool :=
  ((9 <=? code c)%N && (code c <=? 13)%N)
  || ((28 <=? code c)%N && (code c <=? 32)%N).

(** The C locale's spaces, the set [int] and [float] strip. *)
Definition isspace_c (c : ascii) : bool :=
  ((9 <=? code c)%N && (code c <=? 13)%N) || (code c =? 32)%N.

Definition to_upper (c : ascii) : ascii :=
  if (97 <=? code c)%N && (code c <=? 122)%N
  then ascii_of_N (code c - 32) else c.

Definition to_lower (c : ascii) : ascii :=
  if (65 <=? code c)%N && (code c <=? 90)%N
  then ascii_of_N (code c + 32) else c.

Fixpoint map_str (f : ascii -> ascii) (s : string) : string :=
  match s with
  | EmptyString => EmptyString
  | String c s' => String (f c) (map_str f s')
  end.

Definition upper : string -> string := map_str to_upper.
Definition lower : string -> string := map_str to_lower.

Fixpoint lstrip (sp : ascii -> bool) (s : string) : string :=
  match s with
  | EmptyString => EmptyString
  | String c s' => if sp c then lstrip sp s' else s
  end.

Fixpoint rstrip (sp : ascii -> bool) (s : string) : string :=
  match s with
  | EmptyString => EmptyString
  | String c s' =>
      match rstrip sp s' with
      | EmptyString => if sp c then EmptyString else String c EmptyString
      | t => String c t
      end
  end.

(** [s.strip()] *)
Definition strip (s : string) : string := rstrip isspace (lstrip isspace s).

Definition strip_c (s : string) : string :=
  rstrip isspace_c (lstrip isspace_c s).

Fixpoint starts_with (p s : string) : bool :=
  match p, s with
  | EmptyString, _ => true
  | String a p', String b s' => Ascii.eqb a b && starts_with p' s'
  | String _ _, EmptyString => false
  end.

(** [sub in s] *)
Fixpoint contains (sub s : string) : bool :=
  starts_with sub s
  || match s with
     | EmptyString => false
     | String _ s' => contains sub s'
     end.

(** *** Decimal literals *)

(** The digits after a first digit, a single underscore allowed between two
    digits: the value so far, the number of digits read, the rest. *)
Fixpoint digits_tail (s : string) (acc cnt : Z) : Z * Z * string :=
  match s with
  | EmptyString => (acc, cnt, s)
  | String c s' =>
      if is_digit c then digits_tail s' (10 * acc + digit_val c) (cnt + 1)
      else if Ascii.eqb c "_" then
        match s' with
        | String d s'' =>
            if is_digit d
            then digits_tail s'' (10 * acc + digit_val d) (cnt + 1)
            else (acc, cnt, s)
        | EmptyString => (acc, cnt, s)
        end
      else (acc, cnt, s)
  end.

Definition digitpart (s : string) (acc : Z) : option (Z * Z * string) :=
  match s with
  | String c s' =>
      if is_digit c
      then Some (digits_tail s' (10 * acc + digit_val c) 1)
      else None
  | EmptyString => None
  end.

Definition sign (s : string) : bool * string :=
  match s with
  | String c s' =>
      if Ascii.eqb c "-" then (true, s')
      else if Ascii.eqb c "+" then (false, s')
      else (false, s)
  | EmptyString => (false, s)
  end.

(** [int(s)] for a string, base 10. *)
Definition int_of_str (s : string) : result Z :=
  let '(neg, body) := sign (strip_c s) in
  match digitpart body 0 with
  | Some (n, _, EmptyString) => Ok (if neg then - n else n)
  | _ => Raise ValueError
  end.

(** The binary64 value nearest to [m * 10 ^ e], ties to even, for [0 <= m]. *)
Definition float_of_decimal (neg : bool) (m e : Z) : float :=
  match m with
  | Zpos p =>
      if 0 <=? e then binary_round prec emax neg (p * Z.to_pos (10 ^ e)) 0
      else
        let '(q, e', l) :=
          SFdiv_core_binary prec emax (Zpos p) 0 (10 ^ (- e)) 0 in
        binary_round_aux prec emax neg q e' l
  | _ => S754_zero neg
  end.

Definition exponent (neg : bool) (m k : Z) (s : string) : result float :=
  match s with
  | EmptyString => Ok (float_of_decimal neg m (- k))
  | String c s' =>
      if Ascii.eqb (to_lower c) "e" then
        let '(eneg, ds) := sign s' in
        match digitpart ds 0 with
        | Some (x, _, EmptyString) =>
            Ok (float_of_decimal neg m ((if eneg then - x else x) - k))
        | _ => Raise ValueError
        end
      else Raise ValueError
  end.

(** [float(s)] for a string. *)
Definition float_of_str (s : string) : result float :=
  let '(neg, body) := sign (strip_c s) in
  let low := lower body in
  if String.eqb low "inf" || String.eqb low "infinity"
  then Ok (S754_infinity neg)
  else if String.eqb low "nan" then Ok S754_nan
  else
    match digitpart body 0 with
    | Some (m, _, String c r) =>
        if Ascii.eqb c "." then
          match digitpart r m with
          | Some (m', k, r') => exponent neg m' k r'
          | None => exponent neg m 0 r
          end
        else exponent neg m 0 (String c r)
    | Some (m, _, EmptyString) => exponent neg m 0 EmptyString
    | None =>
        match body with
        | String c r =>
            if Ascii.eqb c "." then
              match digitpart r 0 with
              | Some (m', k, r') => exponent neg m' k r'
              | None => Raise ValueError
              end
            else Raise ValueError
        | EmptyString => Raise ValueError
        end
    end.

(** [float(n)] for an int: nearest, ties to even; too large raises. *)
Definition float_of_int (n : Z) : result float :=
  match binary_normalize prec emax n 0 false with
  | S754_infinity _ => Raise OverflowError
  | f => Ok f
  end.

(** [int(x)] for a float: truncation towards zero. *)
Definition int_of_float (f : float) : result Z :=
  match f with
  | S754_zero _ => Ok 0
  | S754_infinity _ => Raise OverflowError
  | S754_nan => Raise ValueError
  | S754_finite s m e =>
      let a := if 0 <=? e then Zpos m * 2 ^ e else Zpos m / 2 ^ (- e) in
      Ok (if s then - a else a)
  end.

(** [x * n] for a float and an int. *)
Definition fmul_int (x : float) (n : Z) : result float :=
  (y <- float_of_int n ;; Ok (fmul x y))%result.

End Py.

(** ** Python objects, as [json.loads] builds them *)

Inductive pyobj : Type :=
| PNone
| PBool (b : bool)
| PInt (n : Z)
| PFloat (f : Py.float)
| PStr (s : string)
| PList (l : list pyobj)
| PDict (d : list (string * pyobj)).

(** A [dict] with string keys, in insertion order, each key once. *)
Definition dict : Type := list (string * pyobj).

Module Obj.

Fixpoint lookup (d : dict) (k : string) : option pyobj :=
  match d with
  | [] => None
  | (k', v) :: d' => if String.eqb k' k then Some v else lookup d' k
  end.

(** [d.get(k, default)] *)
Definition get_or (d : dict) (k : string) (default : pyobj) : pyobj :=
  match lookup d k with
  | Some v => v
  | None => default
  end.

(** [d.get(k)] *)
Definition get (d : dict) (k : string) : pyobj := get_or d k PNone.

(** Truth value of an object, as [if x:] and [not x] test it. *)
Definition truthy (x : pyobj) : bool :=
  match x with
  | PNone => false
  | PBool b => b
  | PInt n => negb (n =? 0)
  | PFloat (S754_zero _) => false
  | PFloat _ => true
  | PStr s => negb (String.eqb s "")
  | PList l => match l with [] => false | _ => true end
  | PDict d => match d with [] => false | _ => true end
  end.

(** [x == s] for a string literal [s]. *)
Definition eq_str (x : pyobj) (s : string) : bool :=
  match x with
  | PStr t => String.eqb t s
  | _ => false
  end.

Definition is_none (x : pyobj) : bool :=
  match x with
  | PNone => true
  | _ => false
  end.

(** [int(x)] *)
Definition int (x : pyobj) : result Z :=
  match x with
  | PStr s => Py.int_of_str s
  | PInt n => Ok n
  | PBool b => Ok (if b then 1 else 0)
  | PFloat f => Py.int_of_float f
  | PNone | PList _ | PDict _ => Raise TypeError
  end.

(** [float(x)] *)
Definition float (x : pyobj) : result Py.float :=
  match x with
  | PStr s => Py.float_of_str s
  | PInt n => Py.float_of_int n
  | PBool b => Py.float_of_int (if b then 1 else 0)
  | PFloat f => Ok f
  | PNone | PList _ | PDict _ => Raise TypeError
  end.

End Obj.

(** ** The regular expressions of the module *)

Module Re.

Definition is_numchar (c : ascii) : bool :=
  Py.is_digit c || Ascii.eqb c ".".

(** The longest prefix of characters satisfying [p], and the rest. *)
Fixpoint span (p : ascii -> bool) (s : string) : string * string :=
  match s with
  | EmptyString => (EmptyString, EmptyString)
  | String c s' =>
      if p c then let '(a, b) := span p s' in (String c a, b)
      else (EmptyString, s)
  end.

(** [(GB|MB|TB|KB)?] under [re.IGNORECASE], at the head of [s]. *)
Definition unit_group (s : string) : option string :=
  match s with
  | String a (String b _) =>
      let u := String a (String b EmptyString) in
      let up := Py.upper u in
      if String.eqb up "GB" || String.eqb up "MB"
         || String.eqb up "TB" || String.eqb up "KB"
      then Some u else None
  | _ => None
  end.

(** [re.match(r'([\d.]+)\s*(GB|MB|TB|KB)?', s, re.IGNORECASE)]: groups 1
    and 2.  Every part after group 1 can match the empty string, so the
    greedy first attempt is the match. *)
Definition size_match (s : string) : option (string * option string) :=
  let '(num, rest) := span is_numchar s in
  match num with
  | EmptyString => None
  | _ => Some (num, unit_group (Py.lstrip Py.isspace rest))
  end.

Fixpoint until_amp (s : string) : string :=
  match s with
  | EmptyString => EmptyString
  | String c s' =>
      if Ascii.eqb c "&" then EmptyString else String c (until_amp s')
  end.

Fixpoint drop (n : nat) (s : string) : string :=
  match n, s with
  | S n', String _ s' => drop n' s'
  | _, _ => s
  end.

(** [re.search(r'\?_v=([^&]+)', href)]: group 1 of the leftmost match. *)
Fixpoint vm_id_search (href : string) : option string :=
  match href with
  | EmptyString => None
  | String _ href' =>
      if Py.starts_with "?_v=" href then
        match until_amp (drop 4 href) with
        | EmptyString => vm_id_search href'
        | id => Some id
        end
      else vm_id_search href'
  end.

End Re.

(** ** The panel, as the client sees it *)

(** What [BeautifulSoup] gives for the landing page, element by element, as
    the values of the calls the module makes on it. *)
Record anchor : Type := {
  a_href : option string;        (* the [href] attribute, when present *)
  a_text : string                (* [link.text] *)
}.

Record td : Type := {
  td_str : string;               (* [str(cell)], the cell's markup *)
  td_text : string;              (* [cell.text] *)
  td_a : option anchor           (* [cell.find('a')] *)
}.

(** [row.find_all('td')] *)
Definition tr : Type := list td.

Record table : Type := {
  tbody : option (list tr)       (* [table.find('tbody')], its [find_all('tr')] *)
}.

Record soup : Type := {
  vmlist : option table          (* [soup.find('table', {'id': 'vmlist'})] *)
}.

(** An HTTP response: [json] is what [response.json()] returns, [None] when it
    raises [ValueError]; [html] is [BeautifulSoup(response.text, 'html.parser')]. *)
Record response : Type := {
  status_code : Z;
  text : string;
  json : option pyobj;
  html : soup
}.

Inductive request : Type :=
| GetHome                        (* GET  /home.php *)
| PostLogin                      (* POST /login.php, act=login *)
| PostStats (vi : string).       (* POST /_vm_remote.php, act=getstatsdiskusage *)

(** The records written at INFO, WARNING and ERROR level (DEBUG records are
    not modelled). *)
Inductive record : Type :=
| SessionExpired                 (* info: Session expired or not logged in *)
| LoggedIn                       (* info: Successfully logged in to RackNerd *)
| LoginVerified                  (* info: Login verified successfully *)
| VerificationFailed             (* error: Login succeeded but verification failed *)
| TwoFactorEnabled               (* error: 2FA is enabled - not currently supported *)
| AccountBlacklisted             (* error: Account blacklisted due to multiple failed login attempts *)
| InvalidCredentials             (* error: Invalid username or password *)
| UnknownLoginStatus (status : pyobj)
| LoginSuccessFalse              (* error: Login failed - success=false in response *)
| LoginNotJson                   (* error: Failed to parse login response as JSON *)
| LoginError (e : exn)
| NotLoggedIn                    (* warning: Not logged in - logout link not found on page *)
| VmTableNotFound                (* warning: VM table not found on home page *)
| FoundVms (n : nat)
| GetVmsError (e : exn)
| StatsFailed (vm_id : string)   (* warning: Failed to get stats for VM ... *)
| StatsError (vm_id : string) (e : exn)
| NoVmsFound                     (* warning: No VMs found *)
| StatsUnavailable (hostname : string).

(** One entry of the list [get_vms] returns. *)
Record vm : Type := {
  vm_id : string;
  hostname : string;
  vm_type : string;
  ip_address : string;
  os : string;
  memory : string;
  disk : string
}.

(** ** RackNerdClient *)

Module Client.

(** The client between two calls: its [_logged_in] flag, the outcomes of
    the HTTP calls still to come (a response, or the exception [requests]
    raises), the requests sent and the log, oldest first. *)
Record state : Type := {
  logged_in : bool;
  pending : list (result response);
  sent : list request;
  logged : list record
}.

Definition M (A : Type) : Type := state -> A * state.

Definition ret {A} (a : A) : M A := fun c => (a, c).

Definition bind {A B} (m : M A) (k : A -> M B) : M B :=
  fun c => let '(a, c') := m c in k a c'.

Declare Scope client_scope.
Delimit Scope client_scope with client.
Notation "x <- m ;; k" := (bind m (fun x => k))
  (at level 61, m at next level, right associativity) : client_scope.
Notation "m ;; k" := (bind m (fun _ => k))
  (at level 61, right associativity) : client_scope.
Local Open Scope client_scope.

Definition set_logged_in (b : bool) : M unit :=
  fun c => (tt, {| logged_in := b; pending := pending c;
                   sent := sent c; logged := logged c |}).

Definition get_logged_in : M bool := fun c => (logged_in c, c).

Definition log (r : record) : M unit :=
  fun c => (tt, {| logged_in := logged_in c; pending := pending c;
                   sent := sent c; logged := logged c ++ [r] |}).

(** [self.session.get] / [self.session.post]: the next outcome; a panel
    with nothing left to say is a connection that fails. *)
Definition http (rq : request) : M (result response) :=
  fun c =>
    match pending c with
    | [] =>
        (Raise ConnectionError,
         {| logged_in := logged_in c; pending := [];
            sent := sent c ++ [rq]; logged := logged c |})
    | r :: rest =>
        (r, {| logged_in := logged_in c; pending := rest;
               sent := sent c ++ [rq]; logged := logged c |})
    end.

(** [response.raise_for_status()] *)
Definition raise_for_status (r : response) : result unit :=
  if (400 <=? status_code r) && (status_code r <? 600)
  then Raise HTTPError else Ok tt.

(** [RackNerdClient.is_logged_in], lines 40-55. *)
Definition is_logged_in : M bool :=
  r <- http GetHome ;;
  match r with
  | Ok response =>
      if status_code response =? 200 then
        if Py.contains "logout.php" (text response)
           && Py.contains "vmlist" (text response)
        then ret true
        else ret false
      else ret false
  | Raise _ => ret false
  end.

(** The handlers of [login], lines 129-136: the inner one takes
    [ValueError], the outer one everything else. *)
Definition login_except (e : exn) : M bool :=
  match e with
  | ValueError => log LoginNotJson ;; ret false
  | _ => log (LoginError e) ;; ret false
  end.

(** [RackNerdClient.login], lines 66-136. *)
Definition login : M bool :=
  r <- http PostLogin ;;
  match r with
  | Raise e => log (LoginError e) ;; ret false
  | Ok response =>
      match raise_for_status response with
      | Raise e => log (LoginError e) ;; ret false
      | Ok _ =>
          match json response with
          | None => login_except ValueError
          | Some (PDict json_response) =>
              if Obj.truthy (Obj.get json_response "success") then
                let status := Obj.get json_response "status" in
                if Obj.eq_str status "1" then
                  set_logged_in true ;;
                  log LoggedIn ;;
                  v <- http GetHome ;;
                  match v with
                  | Ok verify =>
                      if Py.contains "logout.php" (text verify)
                      then log LoginVerified ;; ret true
                      else log VerificationFailed ;; ret false
                  | Raise e => login_except e
                  end
                else if Obj.eq_str status "4" then
                  log TwoFactorEnabled ;; ret false
                else if Obj.eq_str status "2" then
                  log AccountBlacklisted ;; ret false
                else if Obj.eq_str status "3" then
                  log InvalidCredentials ;; ret false
                else
                  log (UnknownLoginStatus status) ;; ret false
              else
                log LoginSuccessFalse ;; ret false
          | Some _ => login_except AttributeError
          end
      end
  end.

(** [RackNerdClient.ensure_logged_in], lines 57-64. *)
Definition ensure_logged_in : M bool :=
  flag <- get_logged_in ;;
  alive <- (if flag then is_logged_in else ret false) ;;
  if alive then ret true
  else
    log SessionExpired ;;
    set_logged_in false ;;
    login.

(** [link.get('href', '')] *)
Definition get_href (link : anchor) : string :=
  match a_href link with
  | Some h => h
  | None => ""
  end.

(** The body of the loop over the rows, lines 175-207: [None] where the
    source says [continue]. *)
Definition parse_row (cells : tr) : option vm :=
  match cells with
  | c0 :: c1 :: c2 :: c3 :: c4 :: c5 :: _ =>
      match td_a c1 with
      | None => None
      | Some link =>
          match Re.vm_id_search (get_href link) with
          | None => None
          | Some id =>
              Some {| vm_id := id;
                      hostname := Py.strip (a_text link);
                      vm_type := if Py.contains "kvm.png" (td_str c0)
                                 then "kvm" else "openvz";
                      ip_address := Py.strip (td_text c2);
                      os := Py.strip (td_text c3);
                      memory := Py.strip (td_text c4);
                      disk := Py.strip (td_text c5) |}
          end
      end
  | _ => None                  (* len(cells) < 6 *)
  end.

(** [for row in tbody.find_all('tr'): ... vms.append(...)] *)
Fixpoint parse_rows (rows : list tr) (vms : list vm) : list vm :=
  match rows with
  | [] => vms
  | row :: rest =>
      match parse_row row with
      | None => parse_rows rest vms
      | Some v => parse_rows rest (vms ++ [v])
      end
  end.

(** The body of [RackNerdClient.get_vms], lines 138-214; [retry] stands
    for the call [self.get_vms()] inside it. *)
Definition get_vms_body (retry : M (list vm)) : M (list vm) :=
  ok <- ensure_logged_in ;;
  if negb ok then ret []
  else
    r <- http GetHome ;;
    match r with
    | Raise e => log (GetVmsError e) ;; ret []
    | Ok response =>
        match raise_for_status response with
        | Raise e => log (GetVmsError e) ;; ret []
        | Ok _ =>
            if negb (Py.contains "logout.php" (text response)) then
              log NotLoggedIn ;;
              set_logged_in false ;;
              again <- ensure_logged_in ;;
              if again then retry else ret []
            else
              match vmlist (html response) with
              | None => log VmTableNotFound ;; ret []
              | Some table =>
                  match tbody table with
                  | None => ret []
                  | Some rows =>
                      let vms := parse_rows rows [] in
                      log (FoundVms (List.length vms)) ;; ret vms
                  end
              end
        end
    end.

(** [get_vms], the depth of its recursion bounded by [fuel]; with the fuel
    [get_vms] gives, the recursion never runs out of it. *)
Fixpoint get_vms_rec (fuel : nat) : M (list vm) :=
  get_vms_body
    match fuel with
    | S fuel' => get_vms_rec fuel'
    | O => ret []
    end.

(** Every retry has consumed a reply, so the replies still to come bound
    the depth. *)
Definition get_vms : M (list vm) :=
  fun c => get_vms_rec (List.length (pending c)) c.

(** [RackNerdClient.get_vm_stats], lines 216-241. *)
Definition get_vm_stats (vm_id : string) : M (option dict) :=
  ok <- ensure_logged_in ;;
  if negb ok then ret None
  else
    r <- http (PostStats vm_id) ;;
    match r with
    | Raise e => log (StatsError vm_id e) ;; ret None
    | Ok response =>
        match raise_for_status response with
        | Raise e => log (StatsError vm_id e) ;; ret None
        | Ok _ =>
            match json response with
            | None => log (StatsError vm_id ValueError) ;; ret None
            | Some (PDict data) =>
                if Obj.eq_str (Obj.get data "success") "1"
                then ret (Some data)
                else log (StatsFailed vm_id) ;; ret None
            | Some _ => log (StatsError vm_id AttributeError) ;; ret None
            end
        end
    end.

End Client.

(** ** RackNerdCollector *)

Module Collector.

Import Client.
Local Open Scope client_scope.

(** The metric families of [collect], under the names of its variables. *)
Inductive metric : Type :=
| vm_info | vm_state | vm_stats_up
| bandwidth_total | bandwidth_used | bandwidth_percent
| disk_total | disk_used | disk_percent
| memory_total | memory_used | memory_percent
| vswap_total | vswap_used | vswap_percent.

Definition metric_eqb (a b : metric) : bool :=
  match a, b with
  | vm_info, vm_info | vm_state, vm_state | vm_stats_up, vm_stats_up
  | bandwidth_total, bandwidth_total | bandwidth_used, bandwidth_used
  | bandwidth_percent, bandwidth_percent
  | disk_total, disk_total | disk_used, disk_used
  | disk_percent, disk_percent
  | memory_total, memory_total | memory_used, memory_used
  | memory_percent, memory_percent
  | vswap_total, vswap_total | vswap_used, vswap_used
  | vswap_percent, vswap_percent => true
  | _, _ => false
  end.

(** A sample value: [add_metric] keeps the number it is given. *)
Inductive number : Type :=
| NInt (n : Z)
| NFloat (f : Py.float).

Record sample : Type := {
  labels : list string;
  value : number
}.

(** The samples of every family built so far. *)
Definition families : Type := metric -> list sample.

Definition no_samples : families := fun _ => [].

(** [family.add_metric(labels, value)] *)
Definition add_metric (m : metric) (l : list string) (v : number)
    (fams : families) : families :=
  fun m' =>
    if metric_eqb m m'
    then (fams m' ++ [{| labels := l; value := v |}])%list
    else fams m'.

Definition multipliers : list (string * Z) :=
  [("KB", 1024); ("MB", 1024 ^ 2); ("GB", 1024 ^ 3); ("TB", 1024 ^ 4)].

Fixpoint multipliers_get (table : list (string * Z)) (unit : string)
    (default : Z) : Z :=
  match table with
  | [] => default
  | (k, v) :: table' =>
      if String.eqb k unit then v else multipliers_get table' unit default
  end.

(** [RackNerdCollector.parse_size], lines 250-270; an argument that is
    not a [str] has no [strip]. *)
Definition parse_size (size_str : pyobj) : result Py.float :=
  if negb (Obj.truthy size_str) || Obj.eq_str size_str "null"
  then Ok Py.fzero
  else
    match size_str with
    | PStr s =>
        match Re.size_match (Py.strip s) with
        | None => Ok Py.fzero
        | Some (group1, group2) =>
            (value <- Py.float_of_str group1 ;;
             let unit :=
               Py.upper (match group2 with Some u => u | None => "GB" end) in
             Py.fmul_int value (multipliers_get multipliers unit (1024 ^ 3))
            )%result
        end
    | _ => Raise AttributeError
    end.

(** [try: state = int(state_value) except (ValueError, TypeError): state = 0] *)
Definition state_of (state_value : pyobj) : result Z :=
  match Obj.int state_value with
  | Ok n => Ok n
  | Raise ValueError | Raise TypeError => Ok 0
  | Raise e => Raise e
  end.

(** One of the four blocks Bandwidth, Disk, Memory, VSwap of lines
    404-426, once its guard holds. *)
Definition add_usage (total used percent : string) (mt mu mp : metric)
    (hostname : string) (stats : dict) (fams : families)
    : result families :=
  (t <- parse_size (Obj.get stats total) ;;
   let fams := add_metric mt [hostname] (NFloat t) fams in
   u <- parse_size (Obj.get_or stats used (PStr "0")) ;;
   let fams := add_metric mu [hostname] (NFloat u) fams in
   p <- Obj.float (Obj.get_or stats percent (PStr "0")) ;;
   Ok (add_metric mp [hostname] (NFloat p) fams))%result.

(** [if stats.get(total):] *)
Definition reported (stats : dict) (total : string) : bool :=
  Obj.truthy (Obj.get stats total).

(** [if stats.get(total) and stats[total] not in ['null', None]:] *)
Definition reported_not_null (stats : dict) (total : string) : bool :=
  Obj.truthy (Obj.get stats total)
  && negb (Obj.eq_str (Obj.get stats total) "null"
           || Obj.is_none (Obj.get stats total)).

(** The blocks Bandwidth, Disk, Memory and VSwap of the loop body. *)
Definition bandwidth_usage (hostname : string) (stats : dict)
    (fams : families) : result families :=
  if reported stats "totalbw"
  then add_usage "totalbw" "usedbw" "percentbw"
         bandwidth_total bandwidth_used bandwidth_percent
         hostname stats fams
  else Ok fams.

Definition disk_usage (hostname : string) (stats : dict)
    (fams : families) : result families :=
  if reported stats "totalhdd"
  then add_usage "totalhdd" "usedhdd" "percenthdd"
         disk_total disk_used disk_percent hostname stats fams
  else Ok fams.

Definition memory_usage (hostname : string) (stats : dict)
    (fams : families) : result families :=
  if reported_not_null stats "totalmem"
  then add_usage "totalmem" "usedmem" "percentmem"
         memory_total memory_used memory_percent hostname stats fams
  else Ok fams.

Definition vswap_usage (hostname : string) (stats : dict)
    (fams : families) : result families :=
  if reported_not_null stats "totalvswap"
  then add_usage "totalvswap" "usedvswap" "percentvswap"
         vswap_total vswap_used vswap_percent hostname stats fams
  else Ok fams.

(** The branch [if stats:] of the loop body, lines 390-426. *)
Definition add_available (hostname : string) (stats : dict)
    (fams : families) : result families :=
  (let fams := add_metric vm_stats_up [hostname] (NInt 1) fams in
   state <- state_of (Obj.get_or stats "state" (PStr "0")) ;;
   let fams := add_metric vm_state [hostname] (NInt state) fams in
   fams <- bandwidth_usage hostname stats fams ;;
   fams <- disk_usage hostname stats fams ;;
   fams <- memory_usage hostname stats fams ;;
   vswap_usage hostname stats fams)%result.

(** The branch [else:] of the loop body, lines 427-432. *)
Definition add_unavailable (hostname : string) (fams : families)
    : families :=
  add_metric vm_state [hostname] (NInt 0)
    (add_metric vm_stats_up [hostname] (NInt 0) fams).

Definition add_info (v : vm) (fams : families) : families :=
  add_metric vm_info [hostname v; ip_address v; os v; vm_type v] (NInt 1)
    fams.

(** [for vm in vms: ...], lines 377-432; an exception leaves the loop. *)
Fixpoint collect_loop (vms : list vm) (fams : families)
    : M (result families) :=
  match vms with
  | [] => ret (Ok fams)
  | v :: rest =>
      let fams := add_info v fams in
      stats <- get_vm_stats (vm_id v) ;;
      match stats with
      | Some ((_ :: _) as d) =>
          match add_available (hostname v) d fams with
          | Ok fams' => collect_loop rest fams'
          | Raise e => ret (Raise e)
          end
      | _ =>
          log (StatsUnavailable (hostname v)) ;;
          collect_loop rest (add_unavailable (hostname v) fams)
      end
  end.

(** The order of the [yield]s. *)
Definition yielded : list metric :=
  [vm_info; vm_state; vm_stats_up;
   bandwidth_total; bandwidth_used; bandwidth_percent;
   disk_total; disk_used; disk_percent;
   memory_total; memory_used; memory_percent;
   vswap_total; vswap_used; vswap_percent].

(** What one scrape hands to the registry: the families in the order they
    are yielded, none when there is no VM, or the exception that ends the
    generator before its first [yield]. *)
Definition snapshot : Type := list (metric * list sample).

(** [RackNerdCollector.collect], lines 272-449. *)
Definition collect : M (result snapshot) :=
  vms <- get_vms ;;
  match vms with
  | [] => log NoVmsFound ;; ret (Ok [])
  | _ =>
      r <- collect_loop vms no_samples ;;
      match r with
      | Ok fams => ret (Ok (map (fun m => (m, fams m)) yielded))
      | Raise e => ret (Raise e)
      end
  end.

(** The samples of family [m] in a snapshot. *)
Fixpoint family (m : metric) (snap : snapshot) : list sample :=
  match snap with
  | [] => []
  | (m', l) :: snap' => if metric_eqb m m' then l else family m snap'
  end.

End Collector.

(** ** Sample replies of the panel *)

Module Panel.

Import Client.

Definition no_soup : soup := {| vmlist := None |}.

(** A 200 reply whose body is the JSON object [d]. *)
Definition json_reply (d : dict) : result response :=
  Ok {| status_code := 200; text := ""; json := Some (PDict d);
        html := no_soup |}.

Definition plain_cell (s : string) : td :=
  {| td_str := "<td>" ++ s ++ "</td>"; td_text := s; td_a := None |}.

Definition link_cell (href label : string) : td :=
  {| td_str := "<td><a href=" ++ href ++ ">" ++ label ++ "</a></td>";
     td_text := label;
     td_a := Some {| a_href := Some href; a_text := label |} |}.

(** An inventory row of six cells. *)
Definition vm_row (icon id name : string) : tr :=
  [plain_cell ("<img src=" ++ icon ++ ">");
   link_cell ("control.php?_v=" ++ id) name;
   plain_cell "192.0.2.10"; plain_cell "Debian 12";
   plain_cell "1 GB"; plain_cell "20 GB"].

(** The landing page of a live session, with its inventory table. *)
Definition home (rows : list tr) : result response :=
  Ok {| status_code := 200;
        text := "<a href=logout.php>Logout</a><table id=vmlist>";
        json := None;
        html := {| vmlist := Some {| tbody := Some rows |} |} |}.

(** The page the panel renders at the same URL once the session is gone. *)
Definition login_page : result response :=
  Ok {| status_code := 200; text := "<form action=login.php>";
        json := None; html := no_soup |}.

Definition login_ok : result response :=
  json_reply [("success", PBool true); ("status", PStr "1")].

Definition one_vm : list tr := [vm_row "kvm.png" "a1" "web"].

(** A client in a live session about to receive [replies]. *)
Definition live (replies : list (result response)) : state :=
  {| logged_in := true; pending := replies; sent := []; logged := [] |}.

Definition fresh (replies : list (result response)) : state :=
  {| logged_in := false; pending := replies; sent := []; logged := [] |}.

(** One scrape of a one-VM account whose stats reply is [stats]: the
    probe and the listing, then the probe and the stats request. *)
Definition scrape (stats : dict) : state :=
  live [home one_vm; home one_vm; home one_vm; json_reply stats].

End Panel.

(** * Vocabulary of the statements *)

Import Client Collector.
Local Open Scope list_scope.

(** Every character of [s] satisfies [p]. *)
Fixpoint all_chars (p : ascii -> bool) (s : string) : bool :=
  match s with
  | EmptyString => true
  | String c s' => p c && all_chars p s'
  end.

Definition is_capital (c : ascii) : bool :=
  (65 <=? Py.code c)%N && (Py.code c <=? 90)%N.

(** The link carries a VM id: [?_v=] followed by a character that is not
    [&]. *)
Definition carries_vm_id (href : string) : Prop :=
  exists pre c post,
    href = (pre ++ "?_v=" ++ String c post)%string /\ c <> "&"%char.

(** A malformed row: fewer than six cells, no link in the second cell, or a
    link without a VM id. *)
Definition malformed (cells : tr) : Prop :=
  (List.length cells < 6)%nat
  \/ exists c1,
       nth_error cells 1 = Some c1
       /\ (td_a c1 = None
           \/ exists link,
                td_a c1 = Some link /\ ~ carries_vm_id (get_href link)).

(** The listing the inventory table stands for: the malformed rows left
    out, a summary for each of the others, in the order of the rows. *)
Inductive listing : list tr -> list vm -> Prop :=
| listing_nil : listing [] []
| listing_skip row rows vms :
    malformed row -> listing rows vms -> listing (row :: rows) vms
| listing_keep row rows v vms :
    ~ malformed row -> parse_row row = Some v -> listing rows vms ->
    listing (row :: rows) (v :: vms).

(** [c'] comes after [c]: the replies still to come in [c'] are what is
    left of those of [c]. *)
Definition later (c c' : state) : Prop :=
  exists used, pending c = used ++ pending c'.

Definition monotone {A} (m : M A) : Prop :=
  forall c, later c (snd (m c)).

(** The state in which [get_vms] logs in again: the landing page fetched,
    the warning written, the flag cleared. *)
Definition invalidated (c1 : state) (rest : list (result response)) : state :=
  {| logged_in := false; pending := rest;
     sent := sent c1 ++ [GetHome]; logged := logged c1 ++ [NotLoggedIn] |}.

(** [f] is [f0] with the samples of [base] in front, family by family. *)
Definition shifted (base f0 f : families) : Prop :=
  forall m, f m = base m ++ f0 m.

(** [F] only appends: it raises or not whatever the samples already there,
    and leaves them in front of what it adds. *)
Definition additive (F : families -> result families) : Prop :=
  forall base f0 f,
    shifted base f0 f ->
    match F f0 with
    | Ok g0 => exists g, F f = Ok g /\ shifted base g0 g
    | Raise e => F f = Raise e
    end.

(** The body of the loop on one VM, once its stats are fetched. *)
Definition step (v : vm) (stats : option dict) (fams : families)
    : result families :=
  match stats with
  | Some ((_ :: _) as d) => add_available (hostname v) d (add_info v fams)
  | _ => Ok (add_unavailable (hostname v) (add_info v fams))
  end.

(** What the loop body adds for one VM alone. *)
Definition rendered (v : vm) (stats : option dict) : result families :=
  step v stats no_samples.

Definition entry_samples (m : metric) (v : vm) (stats : option dict)
    : list sample :=
  match rendered v stats with
  | Ok e => e m
  | Raise _ => []
  end.

Definition is_ok {A} (r : result A) : bool :=
  match r with
  | Ok _ => true
  | Raise _ => false
  end.

(** The state in which the loop goes on after a VM. *)
Definition after_vm (v : vm) (stats : option dict) (c : state) : state :=
  match stats with
  | Some (_ :: _) => c
  | _ => snd (log (StatsUnavailable (hostname v)) c)
  end.

(** The stats fetched for each VM in turn, [None] when the fetch failed. *)
Fixpoint fetched (vms : list vm) (c : state) : list (option dict) :=
  match vms with
  | [] => []
  | v :: rest =>
      let '(stats, c1) := get_vm_stats (vm_id v) c in
      stats :: fetched rest (after_vm v stats c1)
  end.

Definition is_usage (m : metric) : bool :=
  match m with
  | vm_info | vm_state | vm_stats_up => false
  | _ => true
  end.

(** The client after a login attempt the panel refused: the request sent,
    one record written, the flag as it was. *)
Definition refused (c : state) (rest : list (result response)) (r : record)
    : state :=
  {| logged_in := logged_in c; pending := rest;
     sent := sent c ++ [PostLogin]; logged := logged c ++ [r] |}.

Definition info_sample (v : vm) : sample :=
  {| labels := [hostname v; ip_address v; os v; vm_type v];
     value := NInt 1 |}.

Definition host_sample (v : vm) (n : Z) : sample :=
  {| labels := [hostname v]; value := NInt n |}.

(** Two VMs, the first with full stats, the second with a stats reply that
    lacks [success]; a malformed row sits between their rows. *)
Definition two_vm_rows : list tr :=
  [Panel.vm_row "kvm.png" "a1" "web";
   [Panel.plain_cell "spacer"];
   Panel.vm_row "openvz.png" "b2" "db"].

Definition two_vm_scrape : state :=
  Panel.live
    [Panel.home two_vm_rows; Panel.home two_vm_rows;
     Panel.home two_vm_rows;
     Panel.json_reply
       [("success", PStr "1"); ("totalbw", PStr "100 GB");
        ("usedbw", PStr "42 GB"); ("percentbw", PStr "42");
        ("state", PStr "1")];
     Panel.home two_vm_rows;
     Panel.json_reply [("totalbw", PStr "100 GB")]].





(** The inventory table as the page has it: the rows of its first [tbody],
    when it has one, and its rows anywhere else (right under [table], in a
    [thead], in a second [tbody]). *)
Record inventory : Type := {
  body_rows : option (list tr);
  other_rows : list tr
}.

(** What [get_vms] sees of it: [html.parser] adds no [tbody] to a table
    written without one, and [get_vms] asks for the rows of the first
    [tbody] only. *)
Definition seen (t : inventory) : table := {| tbody := body_rows t |}.

Definition listed_rows (t : inventory) : list tr :=
  match body_rows t with
  | Some rows => rows
  | None => []
  end.

(** The landing page of a live session with the inventory table [t]. *)
Definition home_of (t : inventory) : result response :=
  Ok {| status_code := 200;
        text := "<a href=logout.php>Logout</a><table id=vmlist>";
        json := None;
        html := {| vmlist := Some (seen t) |} |}.

(** A row of six cells whose link carries the VM id as the second
    parameter of its query. *)
Definition second_parameter_row : tr :=
  [Panel.plain_cell "<img src=kvm.png>";
   Panel.link_cell "control.php?tab=stats&_v=a1" "web";
   Panel.plain_cell "192.0.2.10"; Panel.plain_cell "Debian 12";
   Panel.plain_cell "1 GB"; Panel.plain_cell "20 GB"].

(** ** Vocabulary of the further properties *)

Definition not_amp (c : ascii) : bool := negb (Ascii.eqb c "&").

Definition not_qmark (c : ascii) : bool := negb (Ascii.eqb c "?").

(** What may follow a VM id in a link: nothing, or [&] and more. *)
Definition ends_id (post : string) : Prop :=
  post = EmptyString \/ exists p, post = String "&" p.

(** No space at either end. *)
Definition trimmed (s : string) : Prop :=
  Py.lstrip Py.isspace s = s /\ Py.rstrip Py.isspace s = s.

(** Zero, a positive number or plus infinity: not negative, not NaN. *)
Definition is_nonneg (f : Py.float) : bool :=
  match f with
  | S754_zero false | S754_infinity false | S754_finite false _ _ => true
  | _ => false
  end.

(** The exceptions raised by reading a field, as opposed to those of the
    network. *)
Definition parse_error (e : exn) : bool :=
  match e with
  | HTTPError | ConnectionError => false
  | _ => true
  end.

(** The three families of a usage group carry samples for the same hosts. *)
Definition same_hosts (fams : families) (mt mu mp : metric) : Prop :=
  map labels (fams mt) = map labels (fams mu)
  /\ map labels (fams mu) = map labels (fams mp).

Definition complete_triples (fams : families) : Prop :=
  same_hosts fams bandwidth_total bandwidth_used bandwidth_percent
  /\ same_hosts fams disk_total disk_used disk_percent
  /\ same_hosts fams memory_total memory_used memory_percent
  /\ same_hosts fams vswap_total vswap_used vswap_percent.

(** An availability sample and the state sample of the same VM. *)
Definition availability_state (up st : sample) : Prop :=
  labels up = labels st
  /\ (value up = NInt 0 \/ value up = NInt 1)
  /\ (value up = NInt 0 -> value st = NInt 0).

Definition sound_availability (fams : families) : Prop :=
  Forall (fun s => value s = NInt 1) (fams vm_info)
  /\ Forall2 availability_state (fams vm_stats_up) (fams vm_state).

Definition is_slash (c : ascii) : bool := Ascii.eqb c "/".

(** [RackNerdClient.__init__], line 31: [base_url.rstrip('/')]. *)
Definition base_url (url : string) : string := Py.rstrip is_slash url.

(** The URL of a request, lines 43, 82, 105, 144 and 224. *)
Definition request_url (base : string) (rq : request) : string :=
  match rq with
  | GetHome => base ++ "/home.php"
  | PostLogin => base ++ "/login.php"
  | PostStats _ => base ++ "/_vm_remote.php"
  end%string.

(** The request sequences of one call of [ensure_logged_in]. *)
Definition ensure_requests : list (list request) :=
  [[GetHome]; [PostLogin]; [PostLogin; GetHome];
   [GetHome; PostLogin]; [GetHome; PostLogin; GetHome]].

Definition is_post_login (rq : request) : bool :=
  match rq with
  | PostLogin => true
  | _ => false
  end.


(** The VM ids of the stats requests among [l], in the order sent. *)
Fixpoint stats_ids (l : list request) : list string :=
  match l with
  | [] => []
  | PostStats id :: l' => id :: stats_ids l'
  | _ :: l' => stats_ids l'
  end.

(** [l] is [l'] with some of its elements left out. *)
Inductive subseq {A : Type} : list A -> list A -> Prop :=
| subseq_nil : subseq [] []
| subseq_skip x l l' : subseq l l' -> subseq l (x :: l')
| subseq_keep x l l' : subseq l l' -> subseq (x :: l) (x :: l').

(** [m] sends no stats request. *)
Definition quiet {A} (m : M A) : Prop :=
  forall c, exists l, sent (snd (m c)) = sent c ++ l /\ stats_ids l = [].

(** [m] sends at most one stats request, for [id]. *)
Definition asks {A} (id : string) (m : M A) : Prop :=
  forall c, exists l,
    sent (snd (m c)) = sent c ++ l
    /\ (stats_ids l = [] \/ stats_ids l = [id]).
(** * Properties *)

(** ** Strings *)

Section Strings.

Lemma append_assoc (a b c : string) :
  ((a ++ b) ++ c)%string = (a ++ (b ++ c))%string.
Proof.
  induction a as [|x a IH]; simpl; [reflexivity | now rewrite IH].
Qed.

Lemma append_empty_r (a : string) : (a ++ "")%string = a.
Proof.
  induction a as [|x a IH]; simpl; [reflexivity | now rewrite IH].
Qed.

Variable sp : ascii -> bool.

Lemma lstrip_spaces (ws s : string) :
  all_chars sp ws = true ->
  Py.lstrip sp (ws ++ s)%string = Py.lstrip sp s.
Proof.
  induction ws as [|c ws IH]; simpl; intros H; [reflexivity|].
  apply andb_true_iff in H as [Hc Hws].
  rewrite Hc. now apply IH.
Qed.

Lemma lstrip_head (c : ascii) (s : string) :
  sp c = false -> Py.lstrip sp (String c s) = String c s.
Proof. intros H; simpl; now rewrite H. Qed.

Lemma rstrip_append (s t : string) :
  Py.rstrip sp t <> EmptyString ->
  Py.rstrip sp (s ++ t)%string = (s ++ Py.rstrip sp t)%string.
Proof.
  intros Ht. induction s as [|c s IH]; simpl; [reflexivity|].
  rewrite IH.
  destruct (s ++ Py.rstrip sp t)%string eqn:E; [|reflexivity].
  destruct s; simpl in E; [contradiction | discriminate].
Qed.

Lemma rstrip_no_space (s : string) :
  all_chars (fun c => negb (sp c)) s = true -> Py.rstrip sp s = s.
Proof.
  induction s as [|c s IH]; simpl; intros H; [reflexivity|].
  apply andb_true_iff in H as [Hc Hs].
  rewrite (IH Hs). apply negb_true_iff in Hc. rewrite Hc.
  now destruct s.
Qed.

Lemma lstrip_no_space (s : string) :
  all_chars (fun c => negb (sp c)) s = true -> Py.lstrip sp s = s.
Proof.
  destruct s as [|c s]; simpl; intros H; [reflexivity|].
  apply andb_true_iff in H as [Hc _].
  apply negb_true_iff in Hc. now rewrite Hc.
Qed.

Lemma span_append (a b : string) :
  all_chars sp a = true ->
  match b with
  | EmptyString => True
  | String c _ => sp c = false
  end ->
  Re.span sp (a ++ b)%string = (a, b).
Proof.
  induction a as [|c a IH]; simpl; intros Ha Hb.
  - destruct b as [|c b]; simpl; [reflexivity | now rewrite Hb].
  - apply andb_true_iff in Ha as [Hc Ha].
    rewrite Hc, (IH Ha Hb). reflexivity.
Qed.

End Strings.

Lemma all_chars_impl (p q : ascii -> bool) (s : string) :
  (forall c, p c = true -> q c = true) ->
  all_chars p s = true -> all_chars q s = true.
Proof.
  intros Hpq. induction s as [|c s IH]; simpl; [reflexivity|].
  intros H. apply andb_true_iff in H as [Hc Hs].
  now rewrite (Hpq _ Hc), (IH Hs).
Qed.

(** Facts about single characters, by enumeration of the 256 bytes. *)
Ltac by_bytes c :=
  destruct c as [[] [] [] [] [] [] [] []];
  vm_compute; intros; (reflexivity || discriminate || tauto).

Lemma numchar_not_space (c : ascii) :
  Re.is_numchar c = true -> Py.isspace c = false.
Proof. by_bytes c. Qed.

Lemma numchar_not_n (c : ascii) :
  Re.is_numchar c = true -> Ascii.eqb c "n" = false.
Proof. by_bytes c. Qed.

Lemma space_not_numchar (c : ascii) :
  Py.isspace c = true -> Re.is_numchar c = false.
Proof. by_bytes c. Qed.

Lemma capital_not_space (c : ascii) :
  is_capital (Py.to_upper c) = true -> Py.isspace c = false.
Proof. by_bytes c. Qed.

Lemma capital_not_numchar (c : ascii) :
  is_capital (Py.to_upper c) = true -> Re.is_numchar c = false.
Proof. by_bytes c. Qed.

(** ** parse_size *)

(** The spellings of a unit: two characters whose upper case is the unit. *)
Lemma unit_spelling (u : string) (mult : Z) :
  In (Py.upper u, mult) multipliers ->
  exists a b,
    u = String a (String b EmptyString)
    /\ is_capital (Py.to_upper a) = true
    /\ is_capital (Py.to_upper b) = true
    /\ Re.unit_group u = Some u
    /\ multipliers_get multipliers (Py.upper u) (1024 ^ 3) = mult.
Proof.
  intros H.
  destruct u as [|a [|b [|c u]]]; simpl in H;
    try (repeat destruct H as [H|H]; try discriminate; contradiction).
  exists a, b. split; [reflexivity|].
  unfold Re.unit_group, Py.upper. simpl.
  repeat destruct H as [H|H]; try contradiction;
    injection H as Ha Hb Hm; rewrite <- Ha, <- Hb, <- Hm;
    repeat split; reflexivity.
Qed.

Lemma parse_size_number_unit (num ws u : string) (mult : Z) (v : Py.float) :
  num <> EmptyString ->
  all_chars Re.is_numchar num = true ->
  all_chars Py.isspace ws = true ->
  In (Py.upper u, mult) multipliers ->
  Py.float_of_str num = Ok v ->
  parse_size (PStr (num ++ ws ++ u)) = Py.fmul_int v mult.
Proof.
  intros Hne Hnum Hws Hu Hv.
  destruct (unit_spelling u mult Hu) as (a & b & -> & Ha & Hb & Hg & Hm).
  destruct num as [|c num]; [contradiction|].
  simpl in Hnum. apply andb_true_iff in Hnum as [Hc Hnum].
  assert (Hstrip : Py.strip (String c num ++ ws ++ String a (String b ""))
                   = (String c num ++ ws ++ String a (String b ""))%string).
  { unfold Py.strip.
    change (String c num ++ ws ++ String a (String b ""))%string
      with (String c (num ++ ws ++ String a (String b ""))).
    rewrite lstrip_head by now apply numchar_not_space.
    change (String c (num ++ ws ++ String a (String b "")))
      with (String c num ++ ws ++ String a (String b ""))%string.
    rewrite <- append_assoc.
    assert (Hr : Py.rstrip Py.isspace (String a (String b ""))
                 = String a (String b "")).
    { apply rstrip_no_space. simpl.
      now rewrite (capital_not_space a Ha), (capital_not_space b Hb). }
    rewrite rstrip_append; rewrite Hr; [reflexivity | discriminate]. }
  unfold parse_size.
  replace (Obj.truthy (PStr (String c num ++ ws ++ String a (String b ""))))
    with true by reflexivity.
  replace (Obj.eq_str (PStr (String c num ++ ws ++ String a (String b "")))
             "null") with false
    by (simpl; now rewrite (numchar_not_n c Hc)).
  simpl negb. simpl orb. cbv iota.
  rewrite Hstrip. unfold Re.size_match.
  rewrite (span_append Re.is_numchar (String c num)
             (ws ++ String a (String b ""))).
  - rewrite lstrip_spaces by assumption.
    rewrite lstrip_head by now apply capital_not_space.
    rewrite Hg, Hv. unfold rbind. now rewrite Hm.
  - simpl. now rewrite Hc, Hnum.
  - destruct ws as [|w ws]; simpl.
    + now apply capital_not_numchar.
    + simpl in Hws. apply andb_true_iff in Hws as [Hw _].
      now apply space_not_numchar.
Qed.

Lemma parse_size_number (num : string) (v : Py.float) :
  num <> EmptyString ->
  all_chars Re.is_numchar num = true ->
  Py.float_of_str num = Ok v ->
  parse_size (PStr num) = Py.fmul_int v (1024 ^ 3).
Proof.
  intros Hne Hnum Hv.
  assert (Hns : all_chars (fun c => negb (Py.isspace c)) num = true).
  { apply (all_chars_impl Re.is_numchar); [|assumption].
    intros c Hc. now rewrite (numchar_not_space c Hc). }
  destruct num as [|c num]; [contradiction|].
  pose proof Hnum as Hnum'.
  simpl in Hnum'. apply andb_true_iff in Hnum' as [Hc _].
  unfold parse_size.
  replace (Obj.truthy (PStr (String c num))) with true by reflexivity.
  replace (Obj.eq_str (PStr (String c num)) "null") with false
    by (simpl; now rewrite (numchar_not_n c Hc)).
  simpl negb. simpl orb. cbv iota.
  unfold Py.strip. rewrite (lstrip_no_space _ _ Hns), (rstrip_no_space _ _ Hns).
  unfold Re.size_match.
  rewrite <- (append_empty_r (String c num)) at 1.
  rewrite (span_append Re.is_numchar (String c num) "" Hnum I).
  rewrite Hv. reflexivity.
Qed.

(** Every multiplier of the table, and the default, is a float. *)
Lemma multiplier_is_float (unit : string) :
  exists f,
    Py.float_of_int (multipliers_get multipliers unit (1024 ^ 3)) = Ok f.
Proof.
  unfold multipliers, multipliers_get.
  destruct (String.eqb "KB" unit); [eexists; vm_compute; reflexivity|].
  destruct (String.eqb "MB" unit); [eexists; vm_compute; reflexivity|].
  destruct (String.eqb "GB" unit); [eexists; vm_compute; reflexivity|].
  destruct (String.eqb "TB" unit); eexists; vm_compute; reflexivity.
Qed.

(** Text the pattern does not match is worth 0.0. *)
Lemma parse_size_no_match (s : string) :
  Re.size_match (Py.strip s) = None -> parse_size (PStr s) = Ok Py.fzero.
Proof.
  intros H. unfold parse_size.
  destruct (negb (Obj.truthy (PStr s)) || Obj.eq_str (PStr s) "null");
    [reflexivity | now rewrite H].
Qed.

(** [parse_size] raises on a string exactly when the pattern matches and
    [float] rejects the number group. *)
Lemma parse_size_raise (s : string) (e : exn) :
  parse_size (PStr s) = Raise e <->
  negb (Obj.truthy (PStr s)) || Obj.eq_str (PStr s) "null" = false
  /\ exists num unit,
       Re.size_match (Py.strip s) = Some (num, unit)
       /\ Py.float_of_str num = Raise e.
Proof.
  unfold parse_size.
  destruct (negb (Obj.truthy (PStr s)) || Obj.eq_str (PStr s) "null").
  { split; [discriminate | intros [H _]; discriminate]. }
  destruct (Re.size_match (Py.strip s)) as [[num unit]|].
  2:{ split; [discriminate | intros [_ (n & u & H & _)]; discriminate]. }
  destruct (Py.float_of_str num) as [v|x] eqn:Ev; cbn [rbind].
  - destruct (multiplier_is_float
                (Py.upper match unit with Some u => u | None => "GB" end))
      as [f Hf].
    unfold Py.fmul_int. rewrite Hf. cbn [rbind].
    split; [discriminate|].
    intros [_ (n & u & H & Hr)]. injection H as <- <-. congruence.
  - split.
    + intros H. split; [reflexivity|]. exists num, unit. split; congruence.
    + intros [_ (n & u & H & Hr)]. injection H as <- <-. congruence.
Qed.

(** ** The inventory table *)

Lemma starts_with_append (p s : string) :
  Py.starts_with p s = true -> exists t, s = (p ++ t)%string.
Proof.
  revert s. induction p as [|a p IH]; intros s H.
  - now exists s.
  - destruct s as [|b s]; simpl in H; [discriminate|].
    apply andb_true_iff in H as [Hab Hp].
    apply Ascii.eqb_eq in Hab as ->.
    destruct (IH s Hp) as [t ->]. now exists t.
Qed.

Lemma until_amp_cons (s : string) (c : ascii) (x : string) :
  Re.until_amp s = String c x ->
  exists post, s = String c post /\ c <> "&"%char.
Proof.
  destruct s as [|a s]; simpl; [discriminate|].
  destruct (Ascii.eqb_spec a "&"); [discriminate|].
  intros H. injection H as -> _. now exists s.
Qed.

Lemma vm_id_search_cons (a : ascii) (h : string) :
  Re.vm_id_search (String a h) =
  if Py.starts_with "?_v=" (String a h) then
    match Re.until_amp (Re.drop 4 (String a h)) with
    | EmptyString => Re.vm_id_search h
    | id => Some id
    end
  else Re.vm_id_search h.
Proof. reflexivity. Qed.

Lemma carries_vm_id_cons (a : ascii) (h : string) :
  carries_vm_id h -> carries_vm_id (String a h).
Proof.
  intros (pre & c & post & -> & Hc).
  now exists (String a pre), c, post.
Qed.

Lemma vm_id_search_some (href id : string) :
  Re.vm_id_search href = Some id -> carries_vm_id href.
Proof.
  induction href as [|a h IH]; [discriminate|].
  rewrite vm_id_search_cons.
  destruct (Py.starts_with "?_v=" (String a h)) eqn:Hs.
  - destruct (starts_with_append _ _ Hs) as [t Ht]. rewrite Ht.
    change (Re.drop 4 ("?_v=" ++ t)%string) with t.
    destruct (Re.until_amp t) as [|c x] eqn:Hu.
    + rewrite <- Ht. intros H. apply carries_vm_id_cons. now apply IH.
    + intros _. destruct (until_amp_cons _ _ _ Hu) as (post & -> & Hc).
      now exists EmptyString, c, post.
  - intros H. apply carries_vm_id_cons. now apply IH.
Qed.

Lemma vm_id_search_carries (href : string) :
  carries_vm_id href -> Re.vm_id_search href <> None.
Proof.
  intros (pre & c & post & -> & Hc).
  induction pre as [|a pre IH].
  - change (Re.vm_id_search ("" ++ "?_v=" ++ String c post))
      with (match Re.until_amp (String c post) with
            | EmptyString => Re.vm_id_search ("_v=" ++ String c post)
            | id => Some id
            end).
    simpl. destruct (Ascii.eqb_spec c "&"); [contradiction | discriminate].
  - change (String a pre ++ "?_v=" ++ String c post)%string
      with (String a (pre ++ "?_v=" ++ String c post)).
    rewrite vm_id_search_cons.
    destruct (Py.starts_with "?_v=" _); [|exact IH].
    destruct (Re.until_amp _); [exact IH | discriminate].
Qed.

Lemma vm_id_search_none (href : string) :
  Re.vm_id_search href = None <-> ~ carries_vm_id href.
Proof.
  split.
  - intros H Hc. now apply (vm_id_search_carries href Hc).
  - intros H. destruct (Re.vm_id_search href) eqn:E; [|reflexivity].
    exfalso. apply H. now apply (vm_id_search_some href s).
Qed.

Lemma parse_row_none (cells : tr) :
  parse_row cells = None <-> malformed cells.
Proof.
  unfold malformed.
  destruct cells as [|c0 [|c1 [|c2 [|c3 [|c4 [|c5 rest]]]]]];
    try (split; [intros _; left; simpl; lia | reflexivity]).
  unfold parse_row. split.
  - intros H. right. exists c1. split; [reflexivity|].
    destruct (td_a c1) as [link|]; [right | now left].
    exists link. split; [reflexivity|].
    apply vm_id_search_none.
    now destruct (Re.vm_id_search (get_href link)).
  - intros [H | (c & Hc & H)]; [simpl in H; lia|].
    injection Hc as <-.
    destruct H as [-> | (link & -> & H)]; [reflexivity|].
    apply vm_id_search_none in H. now rewrite H.
Qed.

Lemma parse_rows_acc (rows : list tr) (acc : list vm) :
  parse_rows rows acc = acc ++ parse_rows rows [].
Proof.
  revert acc. induction rows as [|row rows IH]; intros acc; simpl.
  - now rewrite app_nil_r.
  - destruct (parse_row row) as [v|]; [|apply IH].
    rewrite IH, (IH [v]). now rewrite <- app_assoc.
Qed.

Lemma parse_rows_listing (rows : list tr) :
  listing rows (parse_rows rows []).
Proof.
  induction rows as [|row rows IH]; simpl; [constructor|].
  destruct (parse_row row) as [v|] eqn:E.
  - rewrite parse_rows_acc. simpl. apply listing_keep; [|assumption..].
    intros H. apply parse_row_none in H. congruence.
  - apply listing_skip; [|assumption]. now apply parse_row_none.
Qed.

Lemma listing_unique (rows : list tr) (l1 l2 : list vm) :
  listing rows l1 -> listing rows l2 -> l1 = l2.
Proof.
  intros H1. revert l2.
  induction H1 as [|row rows vms Hm _ IH|row rows v vms Hm Hv _ IH];
    intros l2 H2; inversion H2; subst; try contradiction.
  - reflexivity.
  - now apply IH.
  - f_equal; [congruence | now apply IH].
Qed.

Lemma parse_rows_in (rows : list tr) (v : vm) :
  In v (parse_rows rows []) ->
  exists row, In row rows /\ parse_row row = Some v.
Proof.
  induction rows as [|row rows IH]; simpl; [contradiction|].
  destruct (parse_row row) as [w|] eqn:E.
  - rewrite parse_rows_acc. simpl. intros [<- | H].
    + exists row. auto.
    + destruct (IH H) as (r & Hr & Hv). exists r. auto.
  - intros H. destruct (IH H) as (r & Hr & Hv). exists r. auto.
Qed.

Lemma parse_row_vm_type (cells : tr) (v : vm) :
  parse_row cells = Some v ->
  exists cell0 others,
    cells = cell0 :: others
    /\ vm_type v = (if Py.contains "kvm.png" (td_str cell0)
                    then "kvm" else "openvz")%string.
Proof.
  destruct cells as [|c0 [|c1 [|c2 [|c3 [|c4 [|c5 rest]]]]]];
    try discriminate.
  unfold parse_row.
  destruct (td_a c1) as [link|]; [|discriminate].
  destruct (Re.vm_id_search (get_href link)); [|discriminate].
  intros H. injection H as <-. now exists c0, (c1 :: c2 :: c3 :: c4 :: c5 :: rest).
Qed.

(** ** The session and the replies *)

Lemma later_refl (c : state) : later c c.
Proof. now exists []. Qed.

Lemma later_trans (a b c : state) : later a b -> later b c -> later a c.
Proof.
  intros [u Hu] [w Hw]. exists (u ++ w).
  now rewrite Hu, Hw, app_assoc.
Qed.

Lemma later_length (c c' : state) :
  later c c' -> (List.length (pending c') <= List.length (pending c))%nat.
Proof. intros [u Hu]. rewrite Hu, length_app. lia. Qed.

Lemma later_in (c c' : state) (r : result response) :
  later c c' -> In r (pending c') -> In r (pending c).
Proof. intros [u Hu] H. rewrite Hu. apply in_or_app. now right. Qed.

Section Monotone.

Context {A B : Type}.

Lemma monotone_ret (a : A) : monotone (ret a).
Proof. intros c. apply later_refl. Qed.

Lemma monotone_bind (m : M A) (k : A -> M B) :
  monotone m -> (forall a, monotone (k a)) -> monotone (bind m k).
Proof.
  intros Hm Hk c. unfold bind.
  specialize (Hm c). destruct (m c) as [a c1].
  apply (later_trans _ c1); [exact Hm | apply Hk].
Qed.

End Monotone.

Lemma monotone_log (r : record) : monotone (log r).
Proof. intros c. now exists []. Qed.

Lemma monotone_set_logged_in (b : bool) : monotone (set_logged_in b).
Proof. intros c. now exists []. Qed.

Lemma monotone_get_logged_in : monotone get_logged_in.
Proof. intros c. now exists []. Qed.

Lemma monotone_http (rq : request) : monotone (http rq).
Proof.
  intros c. unfold http.
  destruct (pending c) as [|r rest] eqn:E; unfold later; simpl; rewrite E.
  - now exists [].
  - now exists [r].
Qed.

Create HintDb monotone.
#[local] Hint Resolve monotone_ret monotone_log monotone_set_logged_in
  monotone_get_logged_in monotone_http : monotone.

Ltac monotone_step :=
  match goal with
  | |- monotone (bind _ _) => apply monotone_bind; [|intros ?]
  | |- monotone (match ?x with _ => _ end) => destruct x
  | |- monotone (let _ := _ in _) => cbv zeta
  | |- monotone _ => solve [auto with monotone]
  end.

Lemma monotone_is_logged_in : monotone is_logged_in.
Proof. unfold is_logged_in. repeat monotone_step. Qed.

Lemma monotone_login_except (e : exn) : monotone (login_except e).
Proof. unfold login_except. repeat monotone_step. Qed.

#[local] Hint Resolve monotone_is_logged_in monotone_login_except : monotone.

Lemma monotone_login : monotone login.
Proof. unfold login. repeat monotone_step. Qed.

#[local] Hint Resolve monotone_login : monotone.

Lemma monotone_ensure_logged_in : monotone ensure_logged_in.
Proof. unfold ensure_logged_in. repeat monotone_step. Qed.

#[local] Hint Resolve monotone_ensure_logged_in : monotone.

Lemma http_next (rq : request) (c : state) (r : result response)
    (rest : list (result response)) :
  pending c = r :: rest ->
  http rq c = (r, {| logged_in := logged_in c; pending := rest;
                     sent := sent c ++ [rq]; logged := logged c |}).
Proof. intros H. unfold http. now rewrite H. Qed.

Lemma http_none (rq : request) (c : state) :
  pending c = [] ->
  http rq c = (Raise ConnectionError,
               {| logged_in := logged_in c; pending := [];
                  sent := sent c ++ [rq]; logged := logged c |}).
Proof. intros H. unfold http. now rewrite H. Qed.

(** A client whose flag is clear logs in, after the record of the expired
    session. *)
Lemma ensure_logged_in_relogin (c : state) :
  logged_in c = false ->
  ensure_logged_in c =
  login {| logged_in := false; pending := pending c; sent := sent c;
           logged := logged c ++ [SessionExpired] |}.
Proof.
  intros H. unfold ensure_logged_in, bind, get_logged_in.
  now rewrite H.
Qed.

(** ** get_vms *)

(** A landing page without the marker: what [get_vms] does next is decided
    by [ensure_logged_in] alone. *)
Lemma get_vms_body_marker_absent (retry : M (list vm)) (c c1 : state)
    (page : response) (rest : list (result response)) :
  ensure_logged_in c = (true, c1) ->
  pending c1 = Ok page :: rest ->
  raise_for_status page = Ok tt ->
  Py.contains "logout.php" (text page) = false ->
  get_vms_body retry c =
  (let '(again, c4) := ensure_logged_in (invalidated c1 rest) in
   if again then retry c4 else ([], c4)).
Proof.
  intros E1 Ep Er Em. unfold get_vms_body.
  unfold bind at 1. rewrite E1. cbn [negb].
  unfold bind at 1. rewrite (http_next _ _ _ _ Ep).
  rewrite Er, Em. cbn [negb].
  unfold bind at 1. unfold log at 1. cbn [logged_in pending sent logged].
  unfold bind at 1. unfold set_logged_in at 1.
  cbn [logged_in pending sent logged].
  unfold bind at 1. fold (invalidated c1 rest).
  destruct (ensure_logged_in (invalidated c1 rest)) as [[] c4]; reflexivity.
Qed.

(** Runs the body up to the reply to its fetch of the landing page. *)
Ltac fetch_page E1 Ep :=
  intros retry; unfold get_vms_body;
  unfold bind at 1; rewrite E1; cbn [negb];
  unfold bind at 1; rewrite (http_next _ _ _ _ Ep).

(** One run of the body either ends without the recursive call, with no VM
    or with the rows of a page the panel served, or it is the recursive call
    in a later state with fewer replies to come. *)
Lemma get_vms_body_split (c : state) :
  (exists vms c',
     (forall retry, get_vms_body retry c = (vms, c'))
     /\ (vms = []
         \/ exists page rows,
              In (Ok page) (pending c)
              /\ vmlist (html page) = Some {| tbody := Some rows |}
              /\ vms = parse_rows rows []))
  \/ (exists c',
        later c c'
        /\ (List.length (pending c') < List.length (pending c))%nat
        /\ forall retry, get_vms_body retry c = retry c').
Proof.
  destruct (ensure_logged_in c) as [ok c1] eqn:E1.
  assert (L1 : later c c1).
  { pose proof (monotone_ensure_logged_in c) as H. now rewrite E1 in H. }
  destruct ok.
  2:{ left. exists [], c1. split; [|now left].
      intros retry. unfold get_vms_body, bind. now rewrite E1. }
  destruct (pending c1) as [|r rest] eqn:Ep.
  { left. eexists [], _. split; [|now left].
    intros retry. unfold get_vms_body. unfold bind at 1. rewrite E1.
    cbn [negb]. unfold bind at 1. rewrite (http_none _ _ Ep). reflexivity. }
  destruct r as [page|e].
  2:{ left. eexists [], _. split; [|now left].
      fetch_page E1 Ep. reflexivity. }
  destruct (raise_for_status page) as [[]|e] eqn:Er.
  2:{ left. eexists [], _. split; [|now left].
      fetch_page E1 Ep. now rewrite Er. }
  destruct (Py.contains "logout.php" (text page)) eqn:Em.
  - left.
    assert (Hin : In (Ok page) (pending c)).
    { apply (later_in c c1); [assumption|]. rewrite Ep. now left. }
    destruct (vmlist (html page)) as [[[rows|]]|] eqn:Ev.
    + eexists (parse_rows rows []), _. split.
      * fetch_page E1 Ep. now rewrite Er, Em, Ev.
      * right. now exists page, rows.
    + eexists [], _. split; [|now left].
      fetch_page E1 Ep. now rewrite Er, Em, Ev.
    + eexists [], _. split; [|now left].
      fetch_page E1 Ep. now rewrite Er, Em, Ev.
  - destruct (ensure_logged_in (invalidated c1 rest)) as [again c4] eqn:E4.
    assert (L4 : later (invalidated c1 rest) c4).
    { pose proof (monotone_ensure_logged_in (invalidated c1 rest)) as H.
      now rewrite E4 in H. }
    destruct again.
    + right. exists c4. repeat split.
      * apply (later_trans c c1 c4); [assumption|].
        destruct L4 as [u Hu]. exists (Ok page :: u).
        rewrite Ep. simpl in Hu. now rewrite Hu.
      * apply later_length in L1, L4. rewrite Ep in L1. simpl in L1, L4. lia.
      * intros retry.
        rewrite (get_vms_body_marker_absent retry c c1 page rest E1 Ep Er Em).
        now rewrite E4.
    + left. exists [], c4. split; [|now left].
      intros retry.
      rewrite (get_vms_body_marker_absent retry c c1 page rest E1 Ep Er Em).
      now rewrite E4.
Qed.

(** The replies to come bound the depth of the recursion: more fuel changes
    nothing. *)
Lemma get_vms_rec_fuel (f1 f2 : nat) (c : state) :
  (List.length (pending c) <= f1)%nat ->
  (List.length (pending c) <= f2)%nat ->
  get_vms_rec f1 c = get_vms_rec f2 c.
Proof.
  revert f2 c. induction f1 as [|f1 IH]; intros f2 c H1 H2;
    destruct (get_vms_body_split c)
      as [(vms & c' & H & _) | (c' & _ & Hlt & H)];
    destruct f2 as [|f2]; simpl; rewrite !H; try reflexivity; try lia.
  apply IH; lia.
Qed.

(** [get_vms] satisfies the equation the source defines it by. *)
Lemma get_vms_unfold (c : state) : get_vms c = get_vms_body get_vms c.
Proof.
  unfold get_vms at 1.
  destruct (get_vms_body_split c)
    as [(vms & c' & H & _) | (c' & _ & Hlt & H)].
  - destruct (List.length (pending c)); simpl; now rewrite !H.
  - rewrite (H get_vms).
    destruct (List.length (pending c)) as [|n] eqn:E; [lia|].
    simpl. rewrite H. unfold get_vms. apply get_vms_rec_fuel; lia.
Qed.

(** And it is the only function that does. *)
Lemma get_vms_unique (F : M (list vm)) :
  (forall c, F c = get_vms_body F c) -> forall c, F c = get_vms c.
Proof.
  intros HF c.
  remember (List.length (pending c)) as n eqn:Hn.
  revert c Hn. induction n as [n IH] using lt_wf_ind. intros c Hn.
  rewrite HF, get_vms_unfold.
  destruct (get_vms_body_split c)
    as [(vms & c' & H & _) | (c' & _ & Hlt & H)].
  - now rewrite !H.
  - rewrite !H. apply (IH (List.length (pending c'))); [lia | reflexivity].
Qed.

Lemma get_vms_rec_in (fuel : nat) (c : state) (v : vm) :
  In v (fst (get_vms_rec fuel c)) ->
  exists page rows,
    In (Ok page) (pending c)
    /\ vmlist (html page) = Some {| tbody := Some rows |}
    /\ In v (parse_rows rows []).
Proof.
  revert c. induction fuel as [|fuel IH]; intros c;
    destruct (get_vms_body_split c)
      as [(vms & c' & H & [-> | (page & rows & Hin & Hv & ->)])
         | (c' & Hl & _ & H)];
    simpl; rewrite H; simpl; try contradiction;
    try (intros Hv'; now exists page, rows).
  intros Hv. destruct (IH c' Hv) as (page & rows & Hin & Ht & Hr).
  exists page, rows. split; [|now split].
  now apply (later_in c c').
Qed.

(** ** The depth of the recursion *)




(** ** The loop of collect *)

Lemma shifted_empty (fams : families) : shifted fams no_samples fams.
Proof. intros m. unfold no_samples. now rewrite app_nil_r. Qed.

Lemma shifted_add_metric (m : metric) (l : list string) (v : number)
    (base f0 f : families) :
  shifted base f0 f ->
  shifted base (add_metric m l v f0) (add_metric m l v f).
Proof.
  intros H m'. unfold add_metric.
  destruct (metric_eqb m m'); rewrite H; [now rewrite app_assoc | reflexivity].
Qed.

Lemma additive_compose (F G : families -> result families) :
  additive F -> additive G -> additive (fun fams => rbind (F fams) G).
Proof.
  intros HF HG base f0 f H. specialize (HF base f0 f H).
  destruct (F f0) as [g0|e]; simpl.
  - destruct HF as (g & -> & Hg). simpl. now apply HG.
  - now rewrite HF.
Qed.

Lemma additive_ok : additive (fun fams => Ok fams).
Proof. intros base f0 f H. now exists f. Qed.

Lemma additive_add_usage (total used percent : string) (mt mu mp : metric)
    (h : string) (d : dict) :
  additive (add_usage total used percent mt mu mp h d).
Proof.
  intros base f0 f H. unfold add_usage.
  destruct (parse_size (Obj.get d total)) as [t|e]; [|reflexivity].
  destruct (parse_size (Obj.get_or d used (PStr "0"))) as [u|e];
    [|reflexivity].
  destruct (Obj.float (Obj.get_or d percent (PStr "0"))) as [p|e];
    [|reflexivity].
  simpl. eexists. split; [reflexivity|].
  now repeat apply shifted_add_metric.
Qed.

Lemma additive_bandwidth_usage (h : string) (d : dict) :
  additive (bandwidth_usage h d).
Proof.
  unfold bandwidth_usage. destruct (reported d "totalbw");
    [apply additive_add_usage | apply additive_ok].
Qed.

Lemma additive_disk_usage (h : string) (d : dict) :
  additive (disk_usage h d).
Proof.
  unfold disk_usage. destruct (reported d "totalhdd");
    [apply additive_add_usage | apply additive_ok].
Qed.

Lemma additive_memory_usage (h : string) (d : dict) :
  additive (memory_usage h d).
Proof.
  unfold memory_usage. destruct (reported_not_null d "totalmem");
    [apply additive_add_usage | apply additive_ok].
Qed.

Lemma additive_vswap_usage (h : string) (d : dict) :
  additive (vswap_usage h d).
Proof.
  unfold vswap_usage. destruct (reported_not_null d "totalvswap");
    [apply additive_add_usage | apply additive_ok].
Qed.

Lemma additive_add_available (h : string) (d : dict) :
  additive (add_available h d).
Proof.
  intros base f0 f H. unfold add_available. cbv zeta.
  destruct (state_of (Obj.get_or d "state" (PStr "0"))) as [n|e];
    cbn [rbind]; [|reflexivity].
  apply (additive_compose (bandwidth_usage h d)
           (fun fams => rbind (disk_usage h d fams)
              (fun fams => rbind (memory_usage h d fams)
                 (vswap_usage h d)))).
  - apply additive_bandwidth_usage.
  - apply (additive_compose (disk_usage h d)
             (fun fams => rbind (memory_usage h d fams) (vswap_usage h d))).
    + apply additive_disk_usage.
    + apply (additive_compose (memory_usage h d) (vswap_usage h d)).
      * apply additive_memory_usage.
      * apply additive_vswap_usage.
  - now repeat apply shifted_add_metric.
Qed.

Lemma additive_step (v : vm) (stats : option dict) :
  additive (step v stats).
Proof.
  intros base f0 f H. unfold step, add_info, add_unavailable.
  destruct stats as [[|kv d]|].
  - eexists. split; [reflexivity|]. now repeat apply shifted_add_metric.
  - apply additive_add_available. now apply shifted_add_metric.
  - eexists. split; [reflexivity|]. now repeat apply shifted_add_metric.
Qed.

Lemma collect_loop_cons (v : vm) (rest : list vm) (fams : families)
    (c : state) :
  collect_loop (v :: rest) fams c =
  let '(stats, c1) := get_vm_stats (vm_id v) c in
  match step v stats fams with
  | Ok fams' => collect_loop rest fams' (after_vm v stats c1)
  | Raise e => (Raise e, c1)
  end.
Proof.
  simpl. unfold bind at 1.
  destruct (get_vm_stats (vm_id v) c) as [[[|kv d]|] c1]; try reflexivity.
  unfold step. now destruct (add_available _ _ _).
Qed.

Lemma collect_loop_ok (vms : list vm) :
  forall (fams : families) (c : state),
    forallb (fun vo => is_ok (rendered (fst vo) (snd vo)))
      (combine vms (fetched vms c)) = true ->
    exists fams' c',
      collect_loop vms fams c = (Ok fams', c')
      /\ forall m,
           fams' m =
           fams m ++ flat_map (fun vo => entry_samples m (fst vo) (snd vo))
                       (combine vms (fetched vms c)).
Proof.
  induction vms as [|v rest IH]; intros fams c H.
  - exists fams, c. split; [reflexivity|].
    intros m. simpl. now rewrite app_nil_r.
  - rewrite collect_loop_cons. simpl in H |- *.
    destruct (get_vm_stats (vm_id v) c) as [stats c1].
    simpl in H |- *. apply andb_true_iff in H as [Hv Hrest].
    pose proof (additive_step v stats fams no_samples fams
                  (shifted_empty fams)) as Hs.
    unfold entry_samples at 1. unfold rendered in Hv |- *.
    destruct (step v stats no_samples) as [e|x]; [|discriminate].
    destruct Hs as (f1 & -> & Hf1).
    destruct (IH f1 _ Hrest) as (fams' & c' & -> & Hfams').
    exists fams', c'. split; [reflexivity|].
    intros m. now rewrite Hfams', Hf1, app_assoc.
Qed.

Lemma family_yielded (fams : families) (m : metric) :
  family m (map (fun m' => (m', fams m')) yielded) = fams m.
Proof. destruct m; reflexivity. Qed.

(** ** login *)

Lemma eq_str_true (x : pyobj) (s : string) :
  Obj.eq_str x s = true <-> x = PStr s.
Proof.
  destruct x; simpl; try (split; [discriminate | congruence]).
  rewrite String.eqb_eq. split; congruence.
Qed.

Lemma eq_str_false (x : pyobj) (s : string) :
  x <> PStr s -> Obj.eq_str x s = false.
Proof.
  intros H. destruct (Obj.eq_str x s) eqn:E; [|reflexivity].
  now apply eq_str_true in E.
Qed.

(** [login] once the panel has answered the POST with a JSON object whose
    [success] is truthy. *)
Lemma login_answered (c : state) (reply : response)
    (rest : list (result response)) (d : dict) :
  pending c = Ok reply :: rest ->
  raise_for_status reply = Ok tt ->
  json reply = Some (PDict d) ->
  Obj.truthy (Obj.get d "success") = true ->
  login c =
  (let status := Obj.get d "status" in
   if Obj.eq_str status "1" then
     match rest with
     | Ok verify :: rest' =>
         (Py.contains "logout.php" (text verify),
          {| logged_in := true; pending := rest';
             sent := sent c ++ [PostLogin; GetHome];
             logged := logged c
                       ++ [LoggedIn;
                           if Py.contains "logout.php" (text verify)
                           then LoginVerified else VerificationFailed] |})
     | Raise e :: rest' =>
         (false,
          {| logged_in := true; pending := rest';
             sent := sent c ++ [PostLogin; GetHome];
             logged := logged c
                       ++ [LoggedIn;
                           match e with
                           | ValueError => LoginNotJson
                           | _ => LoginError e
                           end] |})
     | [] =>
         (false,
          {| logged_in := true; pending := [];
             sent := sent c ++ [PostLogin; GetHome];
             logged := logged c ++ [LoggedIn; LoginError ConnectionError] |})
     end
   else if Obj.eq_str status "4" then (false, refused c rest TwoFactorEnabled)
   else if Obj.eq_str status "2" then
     (false, refused c rest AccountBlacklisted)
   else if Obj.eq_str status "3" then
     (false, refused c rest InvalidCredentials)
   else (false, refused c rest (UnknownLoginStatus status))).
Proof.
  intros Hp Hr Hj Hs. unfold login.
  unfold bind at 1. rewrite (http_next _ _ _ _ Hp), Hr, Hj, Hs. cbv zeta.
  destruct (Obj.eq_str (Obj.get d "status") "1").
  - unfold bind, set_logged_in, log, http. simpl.
    destruct rest as [|[verify|e] rest']; simpl.
    + unfold login_except, bind, log, ret. simpl. now rewrite <- !app_assoc.
    + destruct (Py.contains "logout.php" (text verify)); unfold ret; simpl;
        now rewrite <- !app_assoc.
    + destruct e; unfold login_except, bind, log, ret; simpl;
        now rewrite <- !app_assoc.
  - destruct (Obj.eq_str (Obj.get d "status") "4"); [reflexivity|].
    destruct (Obj.eq_str (Obj.get d "status") "2"); [reflexivity|].
    destruct (Obj.eq_str (Obj.get d "status") "3"); reflexivity.
Qed.

(** ** The entries of a snapshot *)

Lemma add_usage_keeps (total used percent : string) (mt mu mp m : metric)
    (h : string) (d : dict) (f g : families) :
  add_usage total used percent mt mu mp h d f = Ok g ->
  metric_eqb mt m = false -> metric_eqb mu m = false ->
  metric_eqb mp m = false ->
  g m = f m.
Proof.
  unfold add_usage. intros H Ht Hu Hp.
  destruct (parse_size (Obj.get d total)); [|discriminate].
  destruct (parse_size (Obj.get_or d used (PStr "0"))); [|discriminate].
  destruct (Obj.float (Obj.get_or d percent (PStr "0"))); [|discriminate].
  simpl in H. injection H as <-. unfold add_metric. now rewrite Ht, Hu, Hp.
Qed.

Ltac usage_keeps :=
  match goal with
  | H : (if ?b then _ else _) = Ok _ |- _ =>
      destruct b;
      [ eapply add_usage_keeps; [exact H | ..];
        match goal with m : metric |- _ => now destruct m end
      | now injection H as <- ]
  end.

Lemma bandwidth_usage_keeps (h : string) (d : dict) (f g : families)
    (m : metric) :
  bandwidth_usage h d f = Ok g -> is_usage m = false -> g m = f m.
Proof. unfold bandwidth_usage. intros H Hm. usage_keeps. Qed.

Lemma disk_usage_keeps (h : string) (d : dict) (f g : families)
    (m : metric) :
  disk_usage h d f = Ok g -> is_usage m = false -> g m = f m.
Proof. unfold disk_usage. intros H Hm. usage_keeps. Qed.

Lemma memory_usage_keeps (h : string) (d : dict) (f g : families)
    (m : metric) :
  memory_usage h d f = Ok g -> is_usage m = false -> g m = f m.
Proof. unfold memory_usage. intros H Hm. usage_keeps. Qed.

Lemma vswap_usage_keeps (h : string) (d : dict) (f g : families)
    (m : metric) :
  vswap_usage h d f = Ok g -> is_usage m = false -> g m = f m.
Proof. unfold vswap_usage. intros H Hm. usage_keeps. Qed.

(** With stats, the loop body adds one availability sample and one state
    sample, and nothing to [vm_info]. *)
Lemma add_available_core (h : string) (d : dict) (f g : families) :
  add_available h d f = Ok g ->
  g vm_info = f vm_info
  /\ g vm_stats_up = f vm_stats_up ++ [{| labels := [h]; value := NInt 1 |}]
  /\ exists n,
       state_of (Obj.get_or d "state" (PStr "0")) = Ok n
       /\ g vm_state = f vm_state ++ [{| labels := [h]; value := NInt n |}].
Proof.
  unfold add_available. cbv zeta.
  destruct (state_of (Obj.get_or d "state" (PStr "0"))) as [n|];
    cbn [rbind]; [|discriminate].
  destruct (bandwidth_usage h d _) as [f1|] eqn:E1;
    cbn [rbind]; [|discriminate].
  destruct (disk_usage h d f1) as [f2|] eqn:E2; cbn [rbind]; [|discriminate].
  destruct (memory_usage h d f2) as [f3|] eqn:E3;
    cbn [rbind]; [|discriminate].
  intros E4.
  assert (K : forall m, is_usage m = false ->
                g m = add_metric vm_state [h] (NInt n)
                        (add_metric vm_stats_up [h] (NInt 1) f) m).
  { intros m Hm.
    rewrite (vswap_usage_keeps _ _ _ _ m E4 Hm),
            (memory_usage_keeps _ _ _ _ m E3 Hm),
            (disk_usage_keeps _ _ _ _ m E2 Hm).
    exact (bandwidth_usage_keeps _ _ _ _ m E1 Hm). }
  repeat split; [| |exists n; split; [reflexivity|]];
    rewrite K by reflexivity; reflexivity.
Qed.

Lemma entry_samples_core (v : vm) (stats : option dict) :
  is_ok (rendered v stats) = true ->
  entry_samples vm_info v stats = [info_sample v]
  /\ (exists n, entry_samples vm_state v stats = [host_sample v n])
  /\ (exists a, entry_samples vm_stats_up v stats = [host_sample v a]).
Proof.
  unfold entry_samples, rendered, step.
  destruct stats as [[|kv d]|].
  - intros _. repeat split; [exists 0 | exists 0]; reflexivity.
  - destruct (add_available _ _ _) as [g|] eqn:E; [|discriminate].
    intros _.
    destruct (add_available_core _ _ _ _ E) as (Hi & Hu & n & _ & Hn).
    rewrite Hi, Hu, Hn. repeat split; [exists n | exists 1]; reflexivity.
  - intros _. repeat split; [exists 0 | exists 0]; reflexivity.
Qed.

(** Without stats, the loop body adds the two zero samples and no usage
    sample. *)
Lemma entry_samples_unavailable (v : vm) :
  entry_samples vm_info v None = [info_sample v]
  /\ entry_samples vm_stats_up v None = [host_sample v 0]
  /\ entry_samples vm_state v None = [host_sample v 0]
  /\ forall m, is_usage m = true -> entry_samples m v None = [].
Proof.
  repeat split. intros m Hm. now destruct m.
Qed.

Lemma fetched_length (vms : list vm) (c : state) :
  List.length (fetched vms c) = List.length vms.
Proof.
  revert c. induction vms as [|v rest IH]; intros c; simpl; [reflexivity|].
  destruct (get_vm_stats (vm_id v) c) as [stats c1]. simpl. now rewrite IH.
Qed.

Lemma map_fst_combine {X Y} (xs : list X) (ys : list Y) :
  List.length ys = List.length xs -> map fst (combine xs ys) = xs.
Proof.
  revert ys. induction xs as [|x xs IH]; intros [|y ys] H;
    simpl in *; try discriminate; [reflexivity|].
  f_equal. apply IH. lia.
Qed.

Lemma flat_map_singletons {X Y} (f : X -> list Y) (g : X -> Y)
    (l : list X) :
  (forall x, In x l -> f x = [g x]) -> flat_map f l = map g l.
Proof.
  induction l as [|x l IH]; intros H; simpl; [reflexivity|].
  rewrite (H x) by now left. simpl. f_equal.
  apply IH. intros y Hy. apply H. now right.
Qed.

Lemma nth_error_combine {X Y} (xs : list X) (ys : list Y) (i : nat)
    (x : X) (y : Y) :
  nth_error xs i = Some x -> nth_error ys i = Some y ->
  nth_error (combine xs ys) i = Some (x, y).
Proof.
  revert ys i. induction xs as [|a xs IH]; intros [|b ys] [|i] Hx Hy;
    simpl in *; try discriminate.
  - congruence.
  - now apply IH.
Qed.

Lemma flat_map_labels {X} (f : X -> list sample) (g : X -> list string)
    (l : list X) :
  (forall x, In x l -> exists s, f x = [s] /\ labels s = g x) ->
  map labels (flat_map f l) = map g l.
Proof.
  induction l as [|x l IH]; intros H; simpl; [reflexivity|].
  destruct (H x) as (s & Hs & Hl); [now left|].
  rewrite Hs. simpl. rewrite Hl. f_equal.
  apply IH. intros y Hy. apply H. now right.
Qed.

(** ** A scrape from end to end *)

(** Three rows, one of them malformed, full stats for the first VM and a
    stats reply without [success] for the second: two entries, the first
    online with a bandwidth total of 100 * 1024^3 bytes, the second
    unavailable. *)
Example two_vm_snapshot :
  fst (collect two_vm_scrape) =
  Ok [(vm_info,
       [{| labels := ["web"; "192.0.2.10"; "Debian 12"; "kvm"]%string;
           value := NInt 1 |};
        {| labels := ["db"; "192.0.2.10"; "Debian 12"; "openvz"]%string;
           value := NInt 1 |}]);
      (vm_state,
       [{| labels := ["web"%string]; value := NInt 1 |};
        {| labels := ["db"%string]; value := NInt 0 |}]);
      (vm_stats_up,
       [{| labels := ["web"%string]; value := NInt 1 |};
        {| labels := ["db"%string]; value := NInt 0 |}]);
      (bandwidth_total,
       [{| labels := ["web"%string];
           value := NFloat (S754_finite false 7036874417766400 (-16)) |}]);
      (bandwidth_used,
       [{| labels := ["web"%string];
           value := NFloat (S754_finite false 5910974510923776 (-17)) |}]);
      (bandwidth_percent,
       [{| labels := ["web"%string];
           value := NFloat (S754_finite false 5910974510923776 (-47)) |}]);
      (disk_total, []); (disk_used, []); (disk_percent, []);
      (memory_total, []); (memory_used, []); (memory_percent, []);
      (vswap_total, []); (vswap_used, []); (vswap_percent, [])]
  /\ Py.float_of_int (100 * 1024 ^ 3)
     = Ok (S754_finite false 7036874417766400 (-16)).
Proof. split; vm_compute; reflexivity. Qed.

(** * The claims *)

(** ** C1: one entry per listed VM *)

(** C1, as stated, fails: on a one-VM account whose stats fetch fails, the
    scrape yields the availability and state samples of the VM, both zero,
    and no sample at all in any of the twelve usage families: the usage
    triples are absent, not present and zeroed. *)
Lemma collect_unavailable_without_usage :
  let c := Panel.scrape [("success", PStr "0")] in
  fetched (fst (get_vms c)) (snd (get_vms c)) = [None]
  /\ exists snap,
       fst (collect c) = Ok snap
       /\ family vm_stats_up snap
          = [{| labels := ["web"%string]; value := NInt 0 |}]
       /\ family vm_state snap
          = [{| labels := ["web"%string]; value := NInt 0 |}]
       /\ forall m, is_usage m = true -> family m snap = [].
Proof.
  split; [vm_compute; reflexivity|].
  eexists. split; [vm_compute; reflexivity|].
  split; [reflexivity|]. split; [reflexivity|].
  intros m Hm. destruct m; (discriminate Hm || reflexivity).
Qed.

(** C1 (amended).  When [get_vms] returns a non-empty list and the loop
    body raises for none of the VMs, [collect] yields the fifteen families
    in the order of the [yield]s; [vm_info], [vm_state] and [vm_stats_up]
    carry one sample per listed VM, in listing order; the samples of every
    family are the samples the loop body adds for each VM alone, from that
    VM's own stats, one VM after the other; and a VM whose stats fetch
    failed has availability 0 and state 0 at its place in these families
    and adds no sample to any usage family. *)
Theorem collect_entries (c c1 : state) (vms : list vm) :
  get_vms c = (vms, c1) ->
  vms <> [] ->
  forallb (fun vo => is_ok (rendered (fst vo) (snd vo)))
    (combine vms (fetched vms c1)) = true ->
  exists snap c',
    collect c = (Ok snap, c')
    /\ map fst snap = yielded
    /\ family vm_info snap = map info_sample vms
    /\ map labels (family vm_state snap) = map (fun v => [hostname v]) vms
    /\ map labels (family vm_stats_up snap) = map (fun v => [hostname v]) vms
    /\ (forall m,
          family m snap =
          flat_map (fun vo => entry_samples m (fst vo) (snd vo))
            (combine vms (fetched vms c1)))
    /\ (forall i v,
          nth_error vms i = Some v ->
          nth_error (fetched vms c1) i = Some None ->
          nth_error (family vm_stats_up snap) i = Some (host_sample v 0)
          /\ nth_error (family vm_state snap) i = Some (host_sample v 0))
    /\ forall v m, is_usage m = true -> entry_samples m v None = [].
Proof.
  intros Hg Hne Hok.
  destruct (collect_loop_ok vms no_samples c1 Hok)
    as (fams & c' & Hloop & Hf).
  exists (map (fun m => (m, fams m)) yielded), c'.
  assert (Hfam : forall m,
             family m (map (fun m' => (m', fams m')) yielded) =
             flat_map (fun vo => entry_samples m (fst vo) (snd vo))
               (combine vms (fetched vms c1))).
  { intros m. now rewrite family_yielded, Hf. }
  assert (Hcore : forall vo,
             In vo (combine vms (fetched vms c1)) ->
             is_ok (rendered (fst vo) (snd vo)) = true).
  { now apply forallb_forall. }
  assert (Hfst : map fst (combine vms (fetched vms c1)) = vms).
  { apply map_fst_combine, fetched_length. }
  split.
  { unfold collect, bind. rewrite Hg.
    destruct vms as [|v rest]; [contradiction|]. now rewrite Hloop. }
  split; [reflexivity|].
  split.
  { rewrite Hfam.
    rewrite (flat_map_singletons _ (fun vo => info_sample (fst vo))).
    - now rewrite <- (map_map fst info_sample), Hfst.
    - intros vo Hvo. apply entry_samples_core. now apply Hcore. }
  split.
  { rewrite Hfam.
    rewrite (flat_map_labels _ (fun vo => [hostname (fst vo)])).
    - now rewrite <- (map_map fst (fun v => [hostname v])), Hfst.
    - intros vo Hvo.
      destruct (entry_samples_core _ _ (Hcore vo Hvo)) as (_ & [n Hn] & _).
      exists (host_sample (fst vo) n). now split. }
  split.
  { rewrite Hfam.
    rewrite (flat_map_labels _ (fun vo => [hostname (fst vo)])).
    - now rewrite <- (map_map fst (fun v => [hostname v])), Hfst.
    - intros vo Hvo.
      destruct (entry_samples_core _ _ (Hcore vo Hvo)) as (_ & _ & [a Ha]).
      exists (host_sample (fst vo) a). now split. }
  split; [exact Hfam|].
  split.
  { intros i v Hv Ho.
    pose proof (nth_error_combine _ _ _ _ _ Hv Ho) as Hvo.
    destruct (entry_samples_unavailable v) as (_ & Hu & Hs & _).
    split; rewrite Hfam.
    - rewrite (flat_map_singletons _
                 (fun vo => hd (host_sample (fst vo) 0)
                              (entry_samples vm_stats_up (fst vo) (snd vo)))).
      + rewrite (map_nth_error _ _ _ Hvo). cbn [fst snd]. now rewrite Hu.
      + intros vo Hin.
        destruct (entry_samples_core _ _ (Hcore vo Hin)) as (_ & _ & [a Ha]).
        now rewrite Ha.
    - rewrite (flat_map_singletons _
                 (fun vo => hd (host_sample (fst vo) 0)
                              (entry_samples vm_state (fst vo) (snd vo)))).
      + rewrite (map_nth_error _ _ _ Hvo). cbn [fst snd]. now rewrite Hs.
      + intros vo Hin.
        destruct (entry_samples_core _ _ (Hcore vo Hin)) as (_ & [n Hn] & _).
        now rewrite Hn. }
  intros v. now destruct (entry_samples_unavailable v) as (_ & _ & _ & Hm).
Qed.

(** The scrape of two VMs, the second without stats. *)
Lemma collect_entries_witness :
  exists snap c',
    collect two_vm_scrape = (Ok snap, c')
    /\ map labels (family vm_info snap)
       = [["web"; "192.0.2.10"; "Debian 12"; "kvm"];
          ["db"; "192.0.2.10"; "Debian 12"; "openvz"]]%string
    /\ map value (family vm_stats_up snap) = [NInt 1; NInt 0]
    /\ map value (family vm_state snap) = [NInt 1; NInt 0]
    /\ map labels (family bandwidth_total snap) = [["web"%string]].
Proof.
  destruct (collect_entries two_vm_scrape (snd (get_vms two_vm_scrape))
              (fst (get_vms two_vm_scrape)))
    as (snap & c' & Hc & _ & Hi & _ & _ & Hfam & _ & _).
  - vm_compute. reflexivity.
  - vm_compute. discriminate.
  - vm_compute. reflexivity.
  - exists snap, c'. split; [exact Hc|].
    rewrite Hi, !Hfam. vm_compute. repeat split.
Defined.

(** ** C2: the status codes of login *)

(** C2, as stated, fails: a reply whose [status] is the number 1, with a
    truthy [success], does not log the client in, even with a landing page
    carrying the marker ready to be served: the status is compared with the
    string ["1"], and the number falls to the unknown-status branch. *)
Lemma login_numeric_status_unknown :
  login (Panel.fresh
           [Panel.json_reply [("success", PBool true); ("status", PInt 1)];
            Panel.home Panel.one_vm])
  = (false,
     {| logged_in := false;
        pending := [Panel.home Panel.one_vm];
        sent := [PostLogin];
        logged := [UnknownLoginStatus (PInt 1)] |}).
Proof. vm_compute. reflexivity. Qed.

(** C2 (amended).  The panel answers the login request with a reply.  If
    the status of the reply is an HTTP error (400 to 599), [login] fails
    with the login-error record, whatever the body: [raise_for_status]
    comes before the parsing.  If it is not: a body that is not JSON makes
    [login] fail with the parse-error record; for a JSON object whose
    [success] is truthy, [login] follows the [status] field compared with
    strings: ["1"] succeeds exactly when the verification fetch returns a
    page with the marker; ["2"], ["3"] and ["4"] fail with the
    blacklisted, invalid-credentials and two-factor records; every other
    value, the numbers 1 to 4 and a missing status among them, fails with
    the unknown-status record.  Nothing but ["1"] yields success, and the
    login request is sent once. *)
Theorem login_status_mapping (c : state) (reply : response)
    (rest : list (result response)) :
  pending c = Ok reply :: rest ->
  (raise_for_status reply = Raise HTTPError ->
   login c = (false, refused c rest (LoginError HTTPError)))
  /\ (raise_for_status reply = Ok tt ->
      (json reply = None -> login c = (false, refused c rest LoginNotJson))
      /\ forall d,
           json reply = Some (PDict d) ->
           Obj.truthy (Obj.get d "success") = true ->
           let status := Obj.get d "status" in
           (status = PStr "1" ->
            sent (snd (login c)) = sent c ++ [PostLogin; GetHome]
            /\ (fst (login c) = true <->
                exists verify rest',
                  rest = Ok verify :: rest'
                  /\ Py.contains "logout.php" (text verify) = true))
           /\ (status = PStr "2" ->
               login c = (false, refused c rest AccountBlacklisted))
           /\ (status = PStr "3" ->
               login c = (false, refused c rest InvalidCredentials))
           /\ (status = PStr "4" ->
               login c = (false, refused c rest TwoFactorEnabled))
           /\ (status <> PStr "1" -> status <> PStr "2" ->
               status <> PStr "3" -> status <> PStr "4" ->
               login c = (false, refused c rest (UnknownLoginStatus status)))
           /\ (fst (login c) = true -> status = PStr "1")).
Proof.
  intros Hp. split.
  { intros Hr. unfold login. unfold bind at 1.
    now rewrite (http_next _ _ _ _ Hp), Hr. }
  intros Hr. split.
  { intros Hj. unfold login. unfold bind at 1.
    now rewrite (http_next _ _ _ _ Hp), Hr, Hj. }
  intros d Hj Hs status.
  pose proof (login_answered c reply rest d Hp Hr Hj Hs) as H.
  cbv zeta in H. fold status in H.
  split; [intros E; split|].
  { rewrite H, E. simpl. now destruct rest as [|[verify|e] rest']. }
  { rewrite H, E. simpl. split.
    - destruct rest as [|[verify|e] rest']; simpl; try discriminate.
      intros Hm. now exists verify, rest'.
    - intros (verify & rest' & -> & Hm). exact Hm. }
  split; [intros E; now rewrite H, E|].
  split; [intros E; now rewrite H, E|].
  split; [intros E; now rewrite H, E|].
  split.
  { intros H1 H2 H3 H4. now rewrite H, !eq_str_false by assumption. }
  rewrite H.
  destruct (Obj.eq_str status "1") eqn:E1; [now apply eq_str_true in E1|].
  destruct (Obj.eq_str status "4"); [discriminate|].
  destruct (Obj.eq_str status "2"); [discriminate|].
  destruct (Obj.eq_str status "3"); discriminate.
Qed.

(** A login the panel refuses with status ["3"], and a login answered
    with a server error. *)
Lemma login_status_mapping_witness :
  login (Panel.fresh
           [Panel.json_reply [("success", PBool true); ("status", PStr "3")]])
  = (false,
     {| logged_in := false; pending := []; sent := [PostLogin];
        logged := [InvalidCredentials] |})
  /\ login (Panel.fresh
              [Ok {| status_code := 500; text := "Internal Server Error";
                     json := None; html := Panel.no_soup |}])
     = (false,
        {| logged_in := false; pending := []; sent := [PostLogin];
           logged := [LoginError HTTPError] |}).
Proof.
  split.
  - destruct (login_status_mapping
                (Panel.fresh
                   [Panel.json_reply
                      [("success", PBool true); ("status", PStr "3")]])
                {| status_code := 200; text := "";
                   json := Some (PDict [("success", PBool true);
                                        ("status", PStr "3")]);
                   html := Panel.no_soup |}
                [] eq_refl) as [_ H].
    destruct (H eq_refl) as [_ H'].
    destruct (H' [("success", PBool true); ("status", PStr "3")]
                eq_refl eq_refl) as (_ & _ & H3 & _).
    exact (H3 eq_refl).
  - exact (proj1 (login_status_mapping
                    (Panel.fresh
                       [Ok {| status_code := 500;
                              text := "Internal Server Error";
                              json := None; html := Panel.no_soup |}])
                    {| status_code := 500; text := "Internal Server Error";
                       json := None; html := Panel.no_soup |}
                    [] eq_refl) eq_refl).
Defined.

(** ** C3: the landing page without the marker *)




(** ** C4: the flag after a failed verification *)

(** C4: the code breaks the claim.  When the panel reports status ["1"] and
    the verification fetch returns a page without the marker, [login] fails
    with the verification record, and the client is left with its flag
    set: [_logged_in] is assigned before the verification and not cleared
    when it fails. *)
Theorem login_unverified_keeps_flag (c : state) (reply verify : response)
    (d : dict) (rest : list (result response)) :
  pending c = Ok reply :: Ok verify :: rest ->
  raise_for_status reply = Ok tt ->
  json reply = Some (PDict d) ->
  Obj.truthy (Obj.get d "success") = true ->
  Obj.get d "status" = PStr "1" ->
  Py.contains "logout.php" (text verify) = false ->
  login c =
  (false,
   {| logged_in := true; pending := rest;
      sent := sent c ++ [PostLogin; GetHome];
      logged := logged c ++ [LoggedIn; VerificationFailed] |}).
Proof.
  intros Hp Hr Hj Hs Hst Hm.
  rewrite (login_answered c reply _ d Hp Hr Hj Hs). cbv zeta.
  now rewrite Hst, Hm.
Qed.

(** A login the panel accepts, followed by the login page. *)
Lemma login_unverified_keeps_flag_witness :
  login (Panel.fresh [Panel.login_ok; Panel.login_page])
  = (false,
     {| logged_in := true; pending := [];
        sent := [PostLogin; GetHome];
        logged := [LoggedIn; VerificationFailed] |}).
Proof.
  exact (login_unverified_keeps_flag
           (Panel.fresh [Panel.login_ok; Panel.login_page])
           {| status_code := 200; text := "";
              json := Some (PDict [("success", PBool true);
                                   ("status", PStr "1")]);
              html := Panel.no_soup |}
           {| status_code := 200; text := "<form action=login.php>";
              json := None; html := Panel.no_soup |}
           [("success", PBool true); ("status", PStr "1")] []
           eq_refl eq_refl eq_refl eq_refl eq_refl eq_refl).
Defined.

(** ** C5: the state sample *)

(** C5: the code breaks the claim.  The state sample is the integer the
    [state] field parses to, not 1 or 0: a stats reply with state ["2"]
    yields the sample 2.  A state that is an infinite number ends the
    scrape with [OverflowError], which the handler around [int] leaves
    through. *)
Theorem collect_state_not_binary :
  (exists snap,
     fst (collect (Panel.scrape [("success", PStr "1");
                                 ("state", PStr "2")])) = Ok snap
     /\ family vm_state snap
        = [{| labels := ["web"%string]; value := NInt 2 |}])
  /\ fst (collect (Panel.scrape
                     [("success", PStr "1");
                      ("state", PFloat (S754_infinity false))]))
     = Raise OverflowError.
Proof.
  split; [|vm_compute; reflexivity].
  eexists. split; [vm_compute; reflexivity | reflexivity].
Qed.

(** ** C6: a percentage that is not a number *)

(** C6: the code breaks the claim.  With a bandwidth total reported and a
    [percentbw] that [float] rejects, [collect] raises [ValueError] and
    yields no family at all. *)
Theorem collect_percent_raises :
  fst (collect (Panel.scrape [("success", PStr "1");
                              ("totalbw", PStr "100 GB");
                              ("percentbw", PStr "n/a")]))
  = Raise ValueError.
Proof. vm_compute. reflexivity. Qed.

(** ** C7: parse_size on text that is not a size *)

(** C7: the code breaks the claim.  The number group of the pattern accepts
    any run of digits and dots; on a run that [float] rejects, as in
    ["1.2.3 GB"] or ["."], [parse_size] raises [ValueError]. *)
Theorem parse_size_raises :
  Re.size_match "1.2.3 GB" = Some ("1.2.3"%string, Some "GB"%string)
  /\ parse_size (PStr "1.2.3 GB") = Raise ValueError
  /\ parse_size (PStr ".") = Raise ValueError.
Proof. repeat split; vm_compute; reflexivity. Qed.

(** ** C8: the reference equations of parse_size *)

(** C8.  [parse_size("20.31 GB")] is the product of the float 20.31 and
    1024^3, [parse_size("")] and [parse_size("null")] are 0.0,
    [parse_size("5")] is 5 * 1024^3; a number followed by any run of spaces
    and a unit KB, MB, GB or TB in any case is the number times 1024,
    1024^2, 1024^3 or 1024^4, and a number alone is the number times
    1024^3. *)
Theorem parse_size_reference :
  parse_size (PStr "20.31 GB")
  = Py.fmul_int (Py.float_of_decimal false 2031 (-2)) (1024 ^ 3)
  /\ parse_size (PStr "20.31 GB")
     = Ok (S754_finite false 5716756776993423 (-18))
  /\ parse_size (PStr "") = Ok Py.fzero
  /\ parse_size (PStr "null") = Ok Py.fzero
  /\ parse_size (PStr "5")
     = Py.fmul_int (Py.float_of_decimal false 5 0) (1024 ^ 3)
  /\ parse_size (PStr "5") = Ok (S754_finite false 5629499534213120 (-20))
  /\ (forall num ws u mult v,
        num <> EmptyString ->
        all_chars Re.is_numchar num = true ->
        all_chars Py.isspace ws = true ->
        In (Py.upper u, mult)
          [("KB"%string, 1024); ("MB"%string, 1024 ^ 2);
           ("GB"%string, 1024 ^ 3); ("TB"%string, 1024 ^ 4)] ->
        Py.float_of_str num = Ok v ->
        parse_size (PStr (num ++ ws ++ u)) = Py.fmul_int v mult)
  /\ (forall num v,
        num <> EmptyString ->
        all_chars Re.is_numchar num = true ->
        Py.float_of_str num = Ok v ->
        parse_size (PStr num) = Py.fmul_int v (1024 ^ 3)).
Proof.
  split; [vm_compute; reflexivity|].
  split; [vm_compute; reflexivity|].
  split; [reflexivity|].
  split; [reflexivity|].
  split; [vm_compute; reflexivity|].
  split; [vm_compute; reflexivity|].
  split.
  - intros num ws u mult v. apply parse_size_number_unit.
  - intros num v. apply parse_size_number.
Qed.

(** A unit in mixed case after two spaces, and a number alone. *)
Lemma parse_size_reference_witness :
  parse_size (PStr "1.5  kB")
  = Py.fmul_int (S754_finite false 6755399441055744 (-52)) 1024
  /\ parse_size (PStr "7.")
     = Py.fmul_int (S754_finite false 7881299347898368 (-50)) (1024 ^ 3).
Proof.
  destruct parse_size_reference as (_ & _ & _ & _ & _ & _ & Hu & Hn).
  split.
  - apply (Hu "1.5" "  " "kB")%string.
    + discriminate.
    + reflexivity.
    + reflexivity.
    + simpl. auto.
    + reflexivity.
  - apply (Hn "7.")%string.
    + discriminate.
    + reflexivity.
    + reflexivity.
Defined.

(** ** C9: the rows of the inventory table *)

(** C9, as stated, fails.  An inventory table written without a [tbody]
    holds one row, with six cells and a link carrying the id: the listing
    the claim describes has one summary, and [get_vms] returns none.  And
    a row inside the [tbody] whose link carries the id as the second
    parameter of its query, [control.php?tab=stats&_v=a1], is left out. *)
Lemma get_vms_drops_well_formed_rows :
  let t := {| body_rows := None; other_rows := Panel.one_vm |} in
  listing (other_rows t)
    [{| vm_id := "a1"; hostname := "web"; vm_type := "kvm";
        ip_address := "192.0.2.10"; os := "Debian 12";
        memory := "1 GB"; disk := "20 GB" |}]
  /\ get_vms (Panel.live [home_of t; home_of t])
     = ([], {| logged_in := true; pending := [];
               sent := [GetHome; GetHome]; logged := [] |})
  /\ get_vms (Panel.live [Panel.home [second_parameter_row];
                           Panel.home [second_parameter_row]])
     = ([], {| logged_in := true; pending := [];
               sent := [GetHome; GetHome]; logged := [FoundVms 0] |}).
Proof.
  split; [exact (parse_rows_listing Panel.one_vm)|].
  split; vm_compute; reflexivity.
Qed.

(** C9 (amended).  When [ensure_logged_in] succeeds and the landing page
    then fetched has no HTTP error status, carries the marker and has the
    inventory table, [get_vms] returns the listing of the rows of the
    first [tbody] of the table, and that listing is the only one: the rows
    with fewer than six cells, without a link in the second cell, or whose
    link has no [?_v=] followed by a character other than [&], are left
    out, every other row gives its summary, and the summaries come in the
    order of the rows.  The rows of the table outside that [tbody] are not
    listed: a table without a [tbody] gives the empty list, whatever rows
    it holds. *)
Theorem get_vms_listing (c c1 : state) (page : response)
    (rest : list (result response)) (t : inventory) :
  ensure_logged_in c = (true, c1) ->
  pending c1 = Ok page :: rest ->
  raise_for_status page = Ok tt ->
  Py.contains "logout.php" (text page) = true ->
  vmlist (html page) = Some (seen t) ->
  listing (listed_rows t) (fst (get_vms c))
  /\ (forall vms, listing (listed_rows t) vms -> vms = fst (get_vms c))
  /\ (body_rows t = None -> fst (get_vms c) = []).
Proof.
  intros E1 Ep Er Em Ev.
  assert (H : fst (get_vms c) = parse_rows (listed_rows t) []).
  { rewrite get_vms_unfold. unfold get_vms_body.
    unfold bind at 1. rewrite E1. cbn [negb].
    unfold bind at 1. rewrite (http_next _ _ _ _ Ep), Er, Em, Ev.
    unfold seen, listed_rows. cbn [negb tbody].
    now destruct (body_rows t). }
  rewrite H. split; [apply parse_rows_listing|]. split.
  - intros vms Hl.
    exact (listing_unique _ _ _ Hl (parse_rows_listing (listed_rows t))).
  - unfold listed_rows. now intros ->.
Qed.

(** The listing of three rows, the second malformed, with a header row
    outside the [tbody]. *)
Lemma get_vms_listing_witness :
  listing two_vm_rows
    [{| vm_id := "a1"; hostname := "web"; vm_type := "kvm";
        ip_address := "192.0.2.10"; os := "Debian 12";
        memory := "1 GB"; disk := "20 GB" |};
     {| vm_id := "b2"; hostname := "db"; vm_type := "openvz";
        ip_address := "192.0.2.10"; os := "Debian 12";
        memory := "1 GB"; disk := "20 GB" |}].
Proof.
  exact (proj1 (get_vms_listing
                  (Panel.live
                     [home_of {| body_rows := Some two_vm_rows;
                                 other_rows := [[Panel.plain_cell "Host"]] |};
                      home_of {| body_rows := Some two_vm_rows;
                                 other_rows := [[Panel.plain_cell "Host"]] |}])
                  {| logged_in := true;
                     pending :=
                       [home_of {| body_rows := Some two_vm_rows;
                                   other_rows :=
                                     [[Panel.plain_cell "Host"]] |}];
                     sent := [GetHome]; logged := [] |}
                  {| status_code := 200;
                     text := "<a href=logout.php>Logout</a><table id=vmlist>";
                     json := None;
                     html := {| vmlist :=
                                  Some {| tbody := Some two_vm_rows |} |} |}
                  []
                  {| body_rows := Some two_vm_rows;
                     other_rows := [[Panel.plain_cell "Host"]] |}
                  eq_refl eq_refl eq_refl eq_refl eq_refl)).
Defined.

(** ** C10: the type of a VM *)

(** C10.  Every summary [get_vms] returns comes from a row of a page the
    panel served, and its type is ["kvm"] when the markup of the first cell
    of the row contains ["kvm.png"] and ["openvz"] when it does not. *)
Theorem get_vms_vm_type (c : state) (v : vm) :
  In v (fst (get_vms c)) ->
  (vm_type v = "kvm"%string \/ vm_type v = "openvz"%string)
  /\ exists page rows cell0 others,
       In (Ok page) (pending c)
       /\ vmlist (html page) = Some {| tbody := Some rows |}
       /\ In (cell0 :: others) rows
       /\ parse_row (cell0 :: others) = Some v
       /\ (vm_type v = "kvm"%string <->
           Py.contains "kvm.png" (td_str cell0) = true)
       /\ (vm_type v = "openvz"%string <->
           Py.contains "kvm.png" (td_str cell0) = false).
Proof.
  intros Hin. unfold get_vms in Hin.
  destruct (get_vms_rec_in _ _ _ Hin) as (page & rows & Hp & Ht & Hv).
  destruct (parse_rows_in rows v Hv) as (row & Hr & Hrow).
  destruct (parse_row_vm_type row v Hrow) as (cell0 & others & -> & Hty).
  destruct (Py.contains "kvm.png" (td_str cell0)) eqn:Hk.
  - split; [now left|].
    exists page, rows, cell0, others. repeat split; try assumption;
      rewrite Hty; intros; congruence.
  - split; [now right|].
    exists page, rows, cell0, others. repeat split; try assumption;
      rewrite Hty; intros; congruence.
Qed.

(** The second VM of the listing above. *)
Lemma get_vms_vm_type_witness :
  In {| vm_id := "b2"; hostname := "db"; vm_type := "openvz";
        ip_address := "192.0.2.10"; os := "Debian 12";
        memory := "1 GB"; disk := "20 GB" |}
     (fst (get_vms (Panel.live [Panel.home two_vm_rows;
                                Panel.home two_vm_rows])))
  /\ ("openvz" = "kvm" \/ "openvz" = "openvz")%string.
Proof.
  assert (H : In {| vm_id := "b2"; hostname := "db"; vm_type := "openvz";
                    ip_address := "192.0.2.10"; os := "Debian 12";
                    memory := "1 GB"; disk := "20 GB" |}
                (fst (get_vms (Panel.live [Panel.home two_vm_rows;
                                           Panel.home two_vm_rows])))).
  { vm_compute. right. left. reflexivity. }
  split; [exact H|].
  exact (proj1 (get_vms_vm_type _ _ H)).
Defined.

(** * Further properties *)

(** ** The VM id of a link *)

Lemma until_amp_split (s : string) :
  all_chars not_amp (Re.until_amp s) = true
  /\ exists post, s = (Re.until_amp s ++ post)%string /\ ends_id post.
Proof.
  induction s as [|c s [IHa (post & IHs & IHp)]]; simpl.
  - split; [reflexivity|]. exists EmptyString. split; [reflexivity | now left].
  - destruct (Ascii.eqb c "&") eqn:E; simpl.
    + apply Ascii.eqb_eq in E as ->.
      split; [reflexivity|]. exists (String "&" s).
      split; [reflexivity | right; now exists s].
    + assert (Hc : not_amp c = true) by (unfold not_amp; now rewrite E).
      rewrite Hc. split; [assumption|].
      exists post. split; [now rewrite <- IHs | assumption].
Qed.

Lemma until_amp_id (id post : string) :
  all_chars not_amp id = true -> ends_id post ->
  Re.until_amp (id ++ post) = id.
Proof.
  intros Hid Hp. induction id as [|c id IH]; simpl.
  - destruct Hp as [-> | [p ->]]; reflexivity.
  - simpl in Hid. apply andb_true_iff in Hid as [Hc Hid].
    unfold not_amp in Hc. apply negb_true_iff in Hc. rewrite Hc.
    now rewrite IH.
Qed.

(** The id found is not empty and holds no [&]. *)
Lemma vm_id_search_id (href id : string) :
  Re.vm_id_search href = Some id ->
  id <> EmptyString /\ all_chars not_amp id = true.
Proof.
  induction href as [|a h IH]; [discriminate|].
  rewrite vm_id_search_cons.
  destruct (Py.starts_with "?_v=" (String a h)); [|exact IH].
  destruct (Re.until_amp (Re.drop 4 (String a h))) as [|c x] eqn:Hu;
    [exact IH|].
  intros H. injection H as <-. split; [discriminate|].
  rewrite <- Hu. apply until_amp_split.
Qed.

(** X1.  When the search finds an id in a link, the id is not empty, holds
    no [&], and stands in the link right after [?_v=], followed by nothing
    or by [&]. *)
Theorem vm_id_search_sound (href id : string) :
  Re.vm_id_search href = Some id ->
  id <> EmptyString
  /\ all_chars not_amp id = true
  /\ exists pre post,
       href = (pre ++ "?_v=" ++ id ++ post)%string /\ ends_id post.
Proof.
  intros H. destruct (vm_id_search_id href id H) as [Hne Hamp].
  split; [assumption|]. split; [assumption|].
  clear Hne Hamp. revert H.
  induction href as [|a h IH]; [discriminate|].
  rewrite vm_id_search_cons.
  assert (Hrec : Re.vm_id_search h = Some id ->
                 exists pre post,
                   String a h = (pre ++ "?_v=" ++ id ++ post)%string
                   /\ ends_id post).
  { intros H. destruct (IH H) as (pre & post & -> & Hp).
    now exists (String a pre), post. }
  destruct (Py.starts_with "?_v=" (String a h)) eqn:Hs; [|exact Hrec].
  destruct (starts_with_append _ _ Hs) as [t Ht]. rewrite Ht.
  change (Re.drop 4 ("?_v=" ++ t)%string) with t.
  destruct (Re.until_amp t) as [|c x] eqn:Hu.
  - rewrite <- Ht. exact Hrec.
  - intros H. injection H as <-.
    destruct (until_amp_split t) as (_ & post & Ht' & Hp).
    exists EmptyString, post. rewrite <- Hu. split; [|assumption].
    simpl. now rewrite <- Ht'.
Qed.

(** A link of the panel. *)
Lemma vm_id_search_sound_witness :
  Re.vm_id_search "control.php?_v=a1&tab=stats" = Some "a1"%string
  /\ "a1"%string <> EmptyString.
Proof.
  assert (H : Re.vm_id_search "control.php?_v=a1&tab=stats"
              = Some "a1"%string) by reflexivity.
  split; [exact H|].
  exact (proj1 (vm_id_search_sound _ _ H)).
Defined.

(** X2.  A link made of a prefix without [?], then [?_v=], a non-empty id
    without [&], and nothing or [&] and more, gives back the id. *)
Theorem vm_id_search_round_trip (pre id post : string) :
  all_chars not_qmark pre = true ->
  id <> EmptyString ->
  all_chars not_amp id = true ->
  ends_id post ->
  Re.vm_id_search (pre ++ "?_v=" ++ id ++ post) = Some id.
Proof.
  intros Hpre Hne Hid Hp.
  induction pre as [|a pre IH].
  - destruct id as [|c id]; [contradiction|].
    change (Re.vm_id_search ("" ++ "?_v=" ++ String c id ++ post))
      with (match Re.until_amp (String c id ++ post) with
            | EmptyString => Re.vm_id_search ("_v=" ++ String c id ++ post)
            | x => Some x
            end).
    now rewrite (until_amp_id (String c id) post Hid Hp).
  - simpl in Hpre. apply andb_true_iff in Hpre as [Ha Hpre].
    change (String a pre ++ "?_v=" ++ id ++ post)%string
      with (String a (pre ++ "?_v=" ++ id ++ post)).
    rewrite vm_id_search_cons.
    unfold not_qmark in Ha. apply negb_true_iff in Ha.
    replace (Py.starts_with "?_v=" (String a (pre ++ "?_v=" ++ id ++ post)))
      with false.
    + now apply IH.
    + change (false = Ascii.eqb "?" a
                      && Py.starts_with "_v=" (pre ++ "?_v=" ++ id ++ post)).
      now rewrite Ascii.eqb_sym, Ha.
Qed.

Lemma vm_id_search_round_trip_witness :
  Re.vm_id_search ("control.php" ++ "?_v=" ++ "kvm-42" ++ "&act=boot")
  = Some "kvm-42"%string.
Proof.
  apply vm_id_search_round_trip.
  - reflexivity.
  - discriminate.
  - reflexivity.
  - right. now exists "act=boot"%string.
Defined.

(** ** strip *)

Section Strip.

Variable sp : ascii -> bool.

Lemma lstrip_head_clean (s : string) (c : ascii) (t : string) :
  Py.lstrip sp s = String c t -> sp c = false.
Proof.
  induction s as [|a s IH]; simpl; [discriminate|].
  destruct (sp a) eqn:Ha; [exact IH|].
  intros H. injection H as <- _. exact Ha.
Qed.

Lemma lstrip_idem (s : string) :
  Py.lstrip sp (Py.lstrip sp s) = Py.lstrip sp s.
Proof.
  destruct (Py.lstrip sp s) as [|c t] eqn:E; [reflexivity|].
  apply lstrip_head. exact (lstrip_head_clean s c t E).
Qed.

Lemma rstrip_idem (s : string) :
  Py.rstrip sp (Py.rstrip sp s) = Py.rstrip sp s.
Proof.
  induction s as [|c s IH]; [reflexivity|].
  simpl. destruct (Py.rstrip sp s) as [|d t] eqn:E.
  - destruct (sp c) eqn:Hc; [reflexivity|]. simpl. now rewrite Hc.
  - change (Py.rstrip sp (String c (String d t)))
      with (match Py.rstrip sp (String d t) with
            | EmptyString =>
                if sp c then EmptyString else String c EmptyString
            | u => String c u
            end).
    now rewrite IH.
Qed.

(** [rstrip] leaves a clean head in place. *)
Lemma rstrip_keeps_head (c : ascii) (t : string) :
  sp c = false ->
  exists u, Py.rstrip sp (String c t) = String c u.
Proof.
  intros Hc. simpl. destruct (Py.rstrip sp t) as [|d u].
  - rewrite Hc. now exists EmptyString.
  - now exists (String d u).
Qed.

Lemma lstrip_rstrip_lstrip (s : string) :
  Py.lstrip sp (Py.rstrip sp (Py.lstrip sp s))
  = Py.rstrip sp (Py.lstrip sp s).
Proof.
  destruct (Py.lstrip sp s) as [|c t] eqn:E; [reflexivity|].
  pose proof (lstrip_head_clean s c t E) as Hc.
  destruct (rstrip_keeps_head c t Hc) as [u ->].
  now apply lstrip_head.
Qed.

Lemma rstrip_all (w : string) :
  all_chars sp w = true -> Py.rstrip sp w = EmptyString.
Proof.
  induction w as [|c w IH]; simpl; intros H; [reflexivity|].
  apply andb_true_iff in H as [Hc Hw]. now rewrite (IH Hw), Hc.
Qed.

Lemma lstrip_all (w : string) :
  all_chars sp w = true -> Py.lstrip sp w = EmptyString.
Proof.
  induction w as [|c w IH]; simpl; intros H; [reflexivity|].
  apply andb_true_iff in H as [Hc Hw]. rewrite Hc. now apply IH.
Qed.

Lemma rstrip_pad (s w : string) :
  all_chars sp w = true -> Py.rstrip sp (s ++ w) = Py.rstrip sp s.
Proof.
  intros Hw. induction s as [|c s IH]; simpl.
  - now apply rstrip_all.
  - now rewrite IH.
Qed.

Lemma lstrip_append (s w : string) :
  Py.lstrip sp (s ++ w) =
  match Py.lstrip sp s with
  | EmptyString => Py.lstrip sp w
  | t => (t ++ w)%string
  end.
Proof.
  induction s as [|c s IH]; simpl; [reflexivity|].
  destruct (sp c); [exact IH | reflexivity].
Qed.

Lemma strip_pad (w1 s w2 : string) :
  all_chars sp w1 = true -> all_chars sp w2 = true ->
  Py.rstrip sp (Py.lstrip sp (w1 ++ s ++ w2))
  = Py.rstrip sp (Py.lstrip sp s).
Proof.
  intros H1 H2. rewrite lstrip_spaces by assumption.
  rewrite lstrip_append.
  destruct (Py.lstrip sp s) as [|c t].
  - now rewrite (lstrip_all w2 H2).
  - now apply rstrip_pad.
Qed.

Lemma rstrip_length (s : string) :
  (String.length (Py.rstrip sp s) <= String.length s)%nat.
Proof.
  induction s as [|c s IH]; simpl; [lia|].
  destruct (Py.rstrip sp s); [destruct (sp c)|]; simpl in *; lia.
Qed.

End Strip.

Lemma strip_trimmed (s : string) : trimmed (Py.strip s).
Proof.
  unfold trimmed, Py.strip. split.
  - apply lstrip_rstrip_lstrip.
  - apply rstrip_idem.
Qed.

Lemma strip_idem (s : string) : Py.strip (Py.strip s) = Py.strip s.
Proof.
  destruct (strip_trimmed s) as [Hl Hr].
  unfold Py.strip at 1. now rewrite Hl, Hr.
Qed.

(** ** The summaries of get_vms *)

Lemma parse_row_fields (cells : tr) (v : vm) :
  parse_row cells = Some v ->
  exists c0 c1 c2 c3 c4 c5 others link,
    cells = c0 :: c1 :: c2 :: c3 :: c4 :: c5 :: others
    /\ td_a c1 = Some link
    /\ Re.vm_id_search (get_href link) = Some (vm_id v)
    /\ hostname v = Py.strip (a_text link)
    /\ ip_address v = Py.strip (td_text c2)
    /\ os v = Py.strip (td_text c3)
    /\ memory v = Py.strip (td_text c4)
    /\ disk v = Py.strip (td_text c5).
Proof.
  destruct cells as [|c0 [|c1 [|c2 [|c3 [|c4 [|c5 rest]]]]]];
    try discriminate.
  unfold parse_row.
  destruct (td_a c1) as [link|] eqn:Ha; [|discriminate].
  destruct (Re.vm_id_search (get_href link)) as [id|] eqn:Hid;
    [|discriminate].
  intros H. injection H as <-.
  exists c0, c1, c2, c3, c4, c5, rest, link. now repeat split.
Qed.

Lemma get_vms_in_row (c : state) (v : vm) :
  In v (fst (get_vms c)) -> exists row, parse_row row = Some v.
Proof.
  intros Hin. unfold get_vms in Hin.
  destruct (get_vms_rec_in _ _ _ Hin) as (page & rows & _ & _ & Hv).
  destruct (parse_rows_in rows v Hv) as (row & _ & Hrow).
  now exists row.
Qed.

(** X3.  Every VM [get_vms] returns has an id that is not empty and holds
    no [&]. *)
Theorem get_vms_ids (c : state) (v : vm) :
  In v (fst (get_vms c)) ->
  vm_id v <> EmptyString /\ all_chars not_amp (vm_id v) = true.
Proof.
  intros Hin. destruct (get_vms_in_row c v Hin) as [row Hrow].
  destruct (parse_row_fields row v Hrow)
    as (c0 & c1 & c2 & c3 & c4 & c5 & others & link & _ & _ & Hid & _).
  exact (vm_id_search_id _ _ Hid).
Qed.

(** The second VM of a two-VM landing page. *)
Lemma get_vms_ids_witness :
  In {| vm_id := "b2"; hostname := "db"; vm_type := "openvz";
        ip_address := "192.0.2.10"; os := "Debian 12";
        memory := "1 GB"; disk := "20 GB" |}
     (fst (get_vms (Panel.live [Panel.home two_vm_rows;
                                Panel.home two_vm_rows])))
  /\ "b2"%string <> EmptyString /\ all_chars not_amp "b2" = true.
Proof.
  assert (H : In {| vm_id := "b2"; hostname := "db"; vm_type := "openvz";
                    ip_address := "192.0.2.10"; os := "Debian 12";
                    memory := "1 GB"; disk := "20 GB" |}
                (fst (get_vms (Panel.live [Panel.home two_vm_rows;
                                           Panel.home two_vm_rows])))).
  { vm_compute. right. left. reflexivity. }
  split; [exact H|].
  exact (get_vms_ids _ _ H).
Defined.

(** X4.  The host name, address, system, memory and disk of every VM
    [get_vms] returns have no space at either end. *)
Theorem get_vms_fields_trimmed (c : state) (v : vm) :
  In v (fst (get_vms c)) ->
  trimmed (hostname v) /\ trimmed (ip_address v) /\ trimmed (os v)
  /\ trimmed (memory v) /\ trimmed (disk v).
Proof.
  intros Hin. destruct (get_vms_in_row c v Hin) as [row Hrow].
  destruct (parse_row_fields row v Hrow)
    as (c0 & c1 & c2 & c3 & c4 & c5 & others & link
        & _ & _ & _ & -> & -> & -> & -> & ->).
  repeat split; apply strip_trimmed.
Qed.

(** A row whose link text is padded with spaces. *)
Lemma get_vms_fields_trimmed_witness :
  In {| vm_id := "a1"; hostname := "web"; vm_type := "kvm";
        ip_address := "192.0.2.10"; os := "Debian 12";
        memory := "1 GB"; disk := "20 GB" |}
     (fst (get_vms
             (Panel.live [Panel.home [Panel.vm_row "kvm.png" "a1" "  web "];
                          Panel.home [Panel.vm_row "kvm.png" "a1" "  web "]])))
  /\ trimmed "web".
Proof.
  assert (H : In {| vm_id := "a1"; hostname := "web"; vm_type := "kvm";
                    ip_address := "192.0.2.10"; os := "Debian 12";
                    memory := "1 GB"; disk := "20 GB" |}
                (fst (get_vms
                        (Panel.live
                           [Panel.home [Panel.vm_row "kvm.png" "a1" "  web "];
                            Panel.home
                              [Panel.vm_row "kvm.png" "a1" "  web "]])))).
  { vm_compute. left. reflexivity. }
  split; [exact H|].
  exact (proj1 (get_vms_fields_trimmed _ _ H)).
Defined.

(** ** The requests and the flag of the session *)

Lemma is_logged_in_cases (c : state) :
  sent (snd (is_logged_in c)) = sent c ++ [GetHome]
  /\ logged_in (snd (is_logged_in c)) = logged_in c
  /\ logged (snd (is_logged_in c)) = logged c
  /\ later c (snd (is_logged_in c))
  /\ (fst (is_logged_in c) = true ->
      exists page,
        pending c = Ok page :: pending (snd (is_logged_in c))
        /\ Py.contains "logout.php" (text page) = true
        /\ Py.contains "vmlist" (text page) = true).
Proof.
  unfold is_logged_in, bind, http.
  destruct (pending c) as [|[page|e] rest] eqn:Hp; simpl.
  - repeat split; [now exists [] | discriminate].
  - destruct (status_code page =? 200); simpl.
    + destruct (Py.contains "logout.php" (text page)) eqn:Hm; simpl.
      * destruct (Py.contains "vmlist" (text page)) eqn:Hv; simpl;
          repeat split; try (now exists [Ok page]); try discriminate.
        intros _. now exists page.
      * repeat split; [now exists [Ok page] | discriminate].
    + repeat split; [now exists [Ok page] | discriminate].
  - repeat split; [now exists [Raise e] | discriminate].
Qed.

(** Closes a case in which [login] has failed after the POST alone. *)
Ltac refused_login E :=
  unfold login_except, refused, bind, log, ret in E;
  cbn [logged_in pending sent logged] in E;
  injection E as <- <-; repeat split; reflexivity.

(** [login] either fails after the POST alone, the flag as it was, or has
    set the flag and fetched the landing page. *)
Lemma login_cases (c : state) :
  (fst (login c) = false
   /\ logged_in (snd (login c)) = logged_in c
   /\ sent (snd (login c)) = sent c ++ [PostLogin])
  \/ (logged_in (snd (login c)) = true
      /\ sent (snd (login c)) = sent c ++ [PostLogin; GetHome]
      /\ (fst (login c) = true ->
          exists reply verify,
            pending c = Ok reply :: Ok verify :: pending (snd (login c))
            /\ Py.contains "logout.php" (text verify) = true)).
Proof.
  destruct (login c) as [ok c'] eqn:E. cbn [fst snd].
  destruct (pending c) as [|[reply|e] rest] eqn:Hp.
  { left. unfold login in E. unfold bind at 1 in E.
    rewrite (http_none _ _ Hp) in E. refused_login E. }
  2:{ left. unfold login in E. unfold bind at 1 in E.
      rewrite (http_next _ _ _ _ Hp) in E. refused_login E. }
  destruct (raise_for_status reply) as [[]|e] eqn:Hr.
  2:{ left. unfold login in E. unfold bind at 1 in E.
      rewrite (http_next _ _ _ _ Hp), Hr in E. refused_login E. }
  destruct (json reply) as [j|] eqn:Hj.
  2:{ left. unfold login in E. unfold bind at 1 in E.
      rewrite (http_next _ _ _ _ Hp), Hr, Hj in E. refused_login E. }
  destruct (match j with PDict _ => true | _ => false end) eqn:Hd.
  2:{ left. unfold login in E. unfold bind at 1 in E.
      rewrite (http_next _ _ _ _ Hp), Hr, Hj in E.
      destruct j; try discriminate Hd; refused_login E. }
  destruct j as [| | | | | |d]; try discriminate Hd. clear Hd.
  destruct (Obj.truthy (Obj.get d "success")) eqn:Hs.
  2:{ left. unfold login in E. unfold bind at 1 in E.
      rewrite (http_next _ _ _ _ Hp), Hr, Hj, Hs in E. refused_login E. }
  rewrite (login_answered c reply rest d Hp Hr Hj Hs) in E. cbv zeta in E.
  destruct (Obj.eq_str (Obj.get d "status") "1").
  - right. destruct rest as [|[verify|e] rest'];
      injection E as <- <-; cbn [logged_in sent pending].
    + repeat split. discriminate.
    + repeat split. intros Hm. now exists reply, verify.
    + repeat split. discriminate.
  - left.
    destruct (Obj.eq_str (Obj.get d "status") "4"); [refused_login E|].
    destruct (Obj.eq_str (Obj.get d "status") "2"); [refused_login E|].
    destruct (Obj.eq_str (Obj.get d "status") "3"); refused_login E.
Qed.

(** With the flag set, [ensure_logged_in] probes, and logs in when the
    probe fails. *)
Lemma ensure_logged_in_probe (c : state) :
  logged_in c = true ->
  ensure_logged_in c =
  (if fst (is_logged_in c) then (true, snd (is_logged_in c))
   else login {| logged_in := false;
                 pending := pending (snd (is_logged_in c));
                 sent := sent (snd (is_logged_in c));
                 logged := logged (snd (is_logged_in c))
                           ++ [SessionExpired] |}).
Proof.
  intros H. unfold ensure_logged_in, bind, get_logged_in. rewrite H.
  destruct (is_logged_in c) as [[] c1]; reflexivity.
Qed.

Lemma ensure_logged_in_flag (c c' : state) :
  ensure_logged_in c = (true, c') -> logged_in c' = true.
Proof.
  destruct (logged_in c) eqn:Hf.
  - rewrite (ensure_logged_in_probe c Hf).
    destruct (is_logged_in_cases c) as (_ & Hflag & _).
    destruct (fst (is_logged_in c)).
    + intros H. injection H as <-. congruence.
    + match goal with |- login ?s = _ -> _ => set (c0 := s) end.
      intros H. destruct (login_cases c0) as [(Hn & _) | (Hy & _)];
        rewrite H in *; [discriminate | exact Hy].
  - rewrite (ensure_logged_in_relogin c Hf).
    match goal with |- login ?s = _ -> _ => set (c0 := s) end.
    intros H. destruct (login_cases c0) as [(Hn & _) | (Hy & _)];
      rewrite H in *; [discriminate | exact Hy].
Qed.

(** X11.  When [ensure_logged_in] returns [True], the flag is set and the
    panel has just served a landing page with the marker. *)
Theorem ensure_logged_in_true (c c' : state) :
  ensure_logged_in c = (true, c') ->
  logged_in c' = true
  /\ exists page used,
       pending c = used ++ Ok page :: pending c'
       /\ Py.contains "logout.php" (text page) = true.
Proof.
  intros H. split; [exact (ensure_logged_in_flag c c' H)|].
  destruct (logged_in c) eqn:Hf.
  - rewrite (ensure_logged_in_probe c Hf) in H.
    destruct (is_logged_in_cases c) as (_ & _ & _ & [u Hu] & Hprobe).
    destruct (fst (is_logged_in c)).
    + injection H as <-. destruct (Hprobe eq_refl) as (page & Hp & Hm & _).
      now exists page, [].
    + match type of H with login ?s = _ => set (c0 := s) in H end.
      destruct (login_cases c0) as [(Hn & _) | (_ & _ & Hy)];
        rewrite H in *; [discriminate|].
      destruct (Hy eq_refl) as (reply & verify & Hp & Hm).
      exists verify, (u ++ [Ok reply]). split; [|exact Hm].
      simpl in Hp. rewrite Hu, Hp, <- app_assoc. reflexivity.
  - rewrite (ensure_logged_in_relogin c Hf) in H.
    match type of H with login ?s = _ => set (c0 := s) in H end.
    destruct (login_cases c0) as [(Hn & _) | (_ & _ & Hy)];
      rewrite H in *; [discriminate|].
    destruct (Hy eq_refl) as (reply & verify & Hp & Hm).
    exists verify, [Ok reply]. split; [exact Hp | exact Hm].
Qed.

(** A session that expired, and a login the panel accepts. *)
Lemma ensure_logged_in_true_witness :
  logged_in
    (snd (ensure_logged_in
            (Panel.live [Panel.login_page; Panel.login_ok;
                         Panel.home Panel.one_vm]))) = true.
Proof.
  exact (proj1 (ensure_logged_in_true
                  (Panel.live [Panel.login_page; Panel.login_ok;
                               Panel.home Panel.one_vm])
                  _ eq_refl)).
Defined.


(** X12.  One call of [ensure_logged_in] sends the probe alone, the login
    alone, the login and its verification, or the probe followed by one of
    the latter two: never more than three requests, never more than one
    login. *)
Theorem ensure_logged_in_requests (c : state) :
  exists l,
    sent (snd (ensure_logged_in c)) = sent c ++ l
    /\ In l ensure_requests
    /\ (List.length l <= 3)%nat
    /\ (List.length (filter is_post_login l) <= 1)%nat.
Proof.
  assert (H : exists l,
             sent (snd (ensure_logged_in c)) = sent c ++ l
             /\ In l ensure_requests).
  { destruct (logged_in c) eqn:Hf.
    - rewrite (ensure_logged_in_probe c Hf).
      destruct (is_logged_in_cases c) as (Hs & _).
      destruct (fst (is_logged_in c)).
      + exists [GetHome]. split; [exact Hs | now left].
      + match goal with |- context [login ?s] => set (c0 := s) end.
        destruct (login_cases c0) as [(_ & _ & Hl) | (_ & Hl & _)];
          rewrite Hl; subst c0; cbn [sent]; rewrite Hs, <- app_assoc.
        * exists [GetHome; PostLogin]. split; [reflexivity|].
          right; right; right; now left.
        * exists [GetHome; PostLogin; GetHome]. split; [reflexivity|].
          right; right; right; right; now left.
    - rewrite (ensure_logged_in_relogin c Hf).
      match goal with |- context [login ?s] => set (c0 := s) end.
      destruct (login_cases c0) as [(_ & _ & Hl) | (_ & Hl & _)];
        rewrite Hl; subst c0; cbn [sent].
      + exists [PostLogin]. split; [reflexivity | right; now left].
      + exists [PostLogin; GetHome]. split; [reflexivity|].
        right; right; now left. }
  destruct H as (l & Hl & Hin). exists l.
  split; [exact Hl|]. split; [exact Hin|].
  unfold ensure_requests in Hin.
  repeat destruct Hin as [<- | Hin]; try contradiction; simpl; lia.
Qed.

(** ** get_vm_stats *)

(** X13.  A dict returned by [get_vm_stats] is the JSON object of a reply
    the panel gave with a status that is no HTTP error (below 400, or 600
    and above: what [raise_for_status] lets through), its [success] is the
    string ["1"], and it is not empty, so that [collect] always takes the
    branch [if stats:] for it. *)
Theorem get_vm_stats_some (id : string) (c c' : state) (d : dict) :
  get_vm_stats id c = (Some d, c') ->
  Obj.get d "success" = PStr "1"
  /\ d <> []
  /\ (exists reply,
        In (Ok reply) (pending c)
        /\ json reply = Some (PDict d)
        /\ raise_for_status reply = Ok tt
        /\ (status_code reply < 400 \/ 600 <= status_code reply))
  /\ forall v fams,
       step v (Some d) fams = add_available (hostname v) d (add_info v fams).
Proof.
  unfold get_vm_stats. unfold bind at 1.
  destruct (ensure_logged_in c) as [ok c1] eqn:E1.
  pose proof (monotone_ensure_logged_in c) as L1. rewrite E1 in L1.
  destruct ok; [|discriminate]. cbn [negb]. unfold bind at 1.
  destruct (pending c1) as [|[reply|e] rest] eqn:Hp.
  { rewrite (http_none _ _ Hp). discriminate. }
  2:{ rewrite (http_next _ _ _ _ Hp). discriminate. }
  rewrite (http_next _ _ _ _ Hp).
  destruct (raise_for_status reply) as [[]|e] eqn:Hr; [|discriminate].
  destruct (json reply) as [[| | | | | |data]|] eqn:Hj; try discriminate.
  destruct (Obj.eq_str (Obj.get data "success") "1") eqn:Hs; [|discriminate].
  intros H. injection H as <- _.
  apply eq_str_true in Hs.
  assert (Hne : data <> []).
  { intros ->. discriminate Hs. }
  split; [exact Hs|]. split; [exact Hne|]. split.
  - exists reply. split; [|split; [exact Hj | split; [exact Hr|]]].
    + apply (later_in c c1); [exact L1|]. rewrite Hp. now left.
    + unfold raise_for_status in Hr.
      destruct (400 <=? status_code reply) eqn:H4;
        destruct (status_code reply <? 600) eqn:H6; try discriminate Hr; lia.
  - intros v fams. unfold step. now destruct data.
Qed.

(** The stats of the first VM of the scrape of two. *)
Lemma get_vm_stats_some_witness :
  Obj.get
    [("success", PStr "1"); ("totalbw", PStr "100 GB");
     ("usedbw", PStr "42 GB"); ("percentbw", PStr "42");
     ("state", PStr "1")] "success" = PStr "1".
Proof.
  exact (proj1 (get_vm_stats_some "a1"
                  (Panel.live
                     [Panel.home two_vm_rows;
                      Panel.json_reply
                        [("success", PStr "1"); ("totalbw", PStr "100 GB");
                         ("usedbw", PStr "42 GB"); ("percentbw", PStr "42");
                         ("state", PStr "1")]])
                  _ _ eq_refl)).
Defined.

(** X14.  [get_vm_stats] sends the stats request once, after the requests
    of [ensure_logged_in], when that returns [True]; when it returns
    [False], no stats request is sent and the result is [None].  The flag
    is left as [ensure_logged_in] left it. *)
Theorem get_vm_stats_requests (id : string) (c : state) :
  sent (snd (get_vm_stats id c)) =
  sent (snd (ensure_logged_in c))
  ++ (if fst (ensure_logged_in c) then [PostStats id] else [])
  /\ logged_in (snd (get_vm_stats id c))
     = logged_in (snd (ensure_logged_in c))
  /\ (fst (ensure_logged_in c) = false -> fst (get_vm_stats id c) = None).
Proof.
  destruct (get_vm_stats id c) as [r c'] eqn:E.
  unfold get_vm_stats in E. unfold bind at 1 in E.
  destruct (ensure_logged_in c) as [ok c1]. cbn [fst snd].
  destruct ok; cbn [negb] in E.
  2:{ injection E as <- <-. rewrite app_nil_r. now repeat split. }
  unfold bind, http, log, ret in E.
  destruct (pending c1) as [|[reply|e] rest].
  { injection E as <- <-. now repeat split. }
  2:{ injection E as <- <-. now repeat split. }
  destruct (raise_for_status reply) as [[]|e].
  2:{ injection E as <- <-. now repeat split. }
  destruct (json reply) as [[| | | | | |data]|];
    try (injection E as <- <-; now repeat split).
  destruct (Obj.eq_str (Obj.get data "success") "1");
    injection E as <- <-; now repeat split.
Qed.

(** ** get_vms and the flag *)

Lemma get_vms_body_found (retry : M (list vm)) (c : state) :
  fst (get_vms_body retry c) <> [] ->
  (logged_in (snd (get_vms_body retry c)) = true
   /\ exists l,
        logged (snd (get_vms_body retry c))
        = l ++ [FoundVms (List.length (fst (get_vms_body retry c)))])
  \/ exists c', get_vms_body retry c = retry c'.
Proof.
  destruct (get_vms_body retry c) as [vms c'] eqn:E. cbn [fst snd].
  unfold get_vms_body in E. unfold bind at 1 in E.
  destruct (ensure_logged_in c) as [ok c1] eqn:E1.
  destruct ok; cbn [negb] in E; [|injection E as <- <-; contradiction].
  pose proof (ensure_logged_in_flag c c1 E1) as Hflag.
  unfold bind at 1 in E.
  destruct (pending c1) as [|[page|e] rest] eqn:Ep.
  { rewrite (http_none _ _ Ep) in E. injection E as <- <-. contradiction. }
  2:{ rewrite (http_next _ _ _ _ Ep) in E.
      injection E as <- <-. contradiction. }
  rewrite (http_next _ _ _ _ Ep) in E.
  destruct (raise_for_status page) as [[]|e];
    [|injection E as <- <-; contradiction].
  destruct (Py.contains "logout.php" (text page)); cbn [negb] in E.
  - destruct (vmlist (html page)) as [[[rows|]]|];
      try (injection E as <- <-; contradiction).
    unfold bind, log, ret in E. cbn [logged_in pending sent logged] in E.
    injection E as <- <-. intros _. left. cbn [logged_in logged].
    split; [exact Hflag|]. now exists (logged c1).
  - unfold bind at 1 2 3 in E. unfold log, set_logged_in in E.
    cbn [logged_in pending sent logged] in E.
    destruct (ensure_logged_in _) as [[] c4] in E.
    + intros _. right. now exists c4.
    + injection E as <- <-. contradiction.
Qed.

Lemma get_vms_rec_found (fuel : nat) (c : state) :
  fst (get_vms_rec fuel c) <> [] ->
  logged_in (snd (get_vms_rec fuel c)) = true
  /\ exists l,
       logged (snd (get_vms_rec fuel c))
       = l ++ [FoundVms (List.length (fst (get_vms_rec fuel c)))].
Proof.
  revert c. induction fuel as [|fuel IH]; intros c H; simpl in *;
    destruct (get_vms_body_found _ c H) as [Hd | [c' Hr]];
    try exact Hd; rewrite Hr in *.
  - now destruct H.
  - now apply IH.
Qed.

(** X15.  When [get_vms] returns a list that is not empty, the client is
    left with its flag set, and the last record of the log is the count of
    the VMs returned. *)
Theorem get_vms_found (c : state) :
  fst (get_vms c) <> [] ->
  logged_in (snd (get_vms c)) = true
  /\ exists l,
       logged (snd (get_vms c))
       = l ++ [FoundVms (List.length (fst (get_vms c)))].
Proof. unfold get_vms. apply get_vms_rec_found. Qed.

(** The listing after two lost sessions. *)
Lemma get_vms_found_witness :
  logged_in
    (snd (get_vms
            (Panel.live
               [Panel.home Panel.one_vm; Panel.login_page;
                Panel.login_ok; Panel.home Panel.one_vm;
                Panel.home Panel.one_vm; Panel.home two_vm_rows]))) = true.
Proof.
  apply get_vms_found. vm_compute. discriminate.
Defined.

(** X17.  When the client cannot log in, a scrape yields no family at all,
    writes the no-VM warning, and sends nothing after the requests of
    [ensure_logged_in]. *)
Theorem collect_not_logged_in (c c1 : state) :
  ensure_logged_in c = (false, c1) ->
  collect c =
  (Ok [], {| logged_in := logged_in c1; pending := pending c1;
             sent := sent c1; logged := logged c1 ++ [NoVmsFound] |}).
Proof.
  intros E.
  assert (H : get_vms c = ([], c1)).
  { rewrite get_vms_unfold. unfold get_vms_body, bind. now rewrite E. }
  unfold collect. unfold bind at 1. now rewrite H.
Qed.

(** A login the panel refuses. *)
Lemma collect_not_logged_in_witness :
  collect (Panel.fresh
             [Panel.json_reply [("success", PBool true);
                                ("status", PStr "2")]])
  = (Ok [], {| logged_in := false; pending := []; sent := [PostLogin];
               logged := [SessionExpired; AccountBlacklisted;
                          NoVmsFound] |}).
Proof.
  exact (collect_not_logged_in
           (Panel.fresh
              [Panel.json_reply [("success", PBool true);
                                 ("status", PStr "2")]])
           _ eq_refl).
Defined.

(** ** parse_size and the text around a size *)

Lemma parse_size_strip (s : string) :
  parse_size (PStr s) = parse_size (PStr (Py.strip s)).
Proof.
  unfold parse_size. cbn [Obj.truthy Obj.eq_str]. rewrite strip_idem.
  destruct (String.eqb_spec s "") as [->|Hs]; [reflexivity|].
  destruct (String.eqb_spec s "null") as [->|Hn]; [reflexivity|].
  cbn [negb orb].
  destruct (String.eqb_spec (Py.strip s) "") as [->|Hs']; [reflexivity|].
  destruct (String.eqb_spec (Py.strip s) "null") as [->|Hn']; reflexivity.
Qed.

(** X5.  Spaces before and after the text of a size change nothing. *)
Theorem parse_size_padding (w1 s w2 : string) :
  all_chars Py.isspace w1 = true ->
  all_chars Py.isspace w2 = true ->
  parse_size (PStr (w1 ++ s ++ w2)) = parse_size (PStr s).
Proof.
  intros H1 H2.
  rewrite (parse_size_strip (w1 ++ s ++ w2)), (parse_size_strip s).
  unfold Py.strip. now rewrite strip_pad.
Qed.

(** A size between a tab and a line end. *)
Lemma parse_size_padding_witness :
  parse_size (PStr (String "009" " " ++ "20.31 GB" ++ String "010" ""))
  = parse_size (PStr "20.31 GB").
Proof.
  apply parse_size_padding; reflexivity.
Defined.

Lemma rstrip_two (sp : ascii -> bool) (a b : ascii) (x : string) :
  sp a = false -> sp b = false ->
  Py.rstrip sp (String a (String b x))
  = String a (String b (Py.rstrip sp x)).
Proof.
  intros Ha Hb. simpl.
  destruct (Py.rstrip sp x); [now rewrite Hb | reflexivity].
Qed.

(** X7.  Whatever follows the unit is ignored: a number, spaces, a unit
    and any text give the number times the multiplier of the unit. *)
Theorem parse_size_text_after_unit (num ws u text : string) (mult : Z)
    (v : Py.float) :
  num <> EmptyString ->
  all_chars Re.is_numchar num = true ->
  all_chars Py.isspace ws = true ->
  In (Py.upper u, mult) multipliers ->
  Py.float_of_str num = Ok v ->
  parse_size (PStr (num ++ ws ++ u ++ text)) = Py.fmul_int v mult.
Proof.
  intros Hne Hnum Hws Hu Hv.
  destruct (unit_spelling u mult Hu) as (a & b & -> & Ha & Hb & Hg & Hm).
  destruct num as [|c num]; [contradiction|].
  simpl in Hnum. apply andb_true_iff in Hnum as [Hc Hnum].
  change (String a (String b "") ++ text)%string
    with (String a (String b text)).
  set (tail := Py.rstrip Py.isspace text).
  assert (Hstrip : Py.strip (String c num ++ ws ++ String a (String b text))
                   = (String c num ++ ws ++ String a (String b tail))%string).
  { unfold Py.strip.
    change (String c num ++ ws ++ String a (String b text))%string
      with (String c (num ++ ws ++ String a (String b text))).
    rewrite lstrip_head by now apply numchar_not_space.
    change (String c (num ++ ws ++ String a (String b text)))
      with (String c num ++ ws ++ String a (String b text))%string.
    rewrite <- append_assoc.
    assert (Hr : Py.rstrip Py.isspace (String a (String b text))
                 = String a (String b tail)).
    { apply rstrip_two; now apply capital_not_space. }
    rewrite rstrip_append; rewrite Hr; [|discriminate].
    now rewrite append_assoc. }
  unfold parse_size.
  replace (Obj.truthy
             (PStr (String c num ++ ws ++ String a (String b text))))
    with true by reflexivity.
  replace (Obj.eq_str
             (PStr (String c num ++ ws ++ String a (String b text))) "null")
    with false by (simpl; now rewrite (numchar_not_n c Hc)).
  simpl negb. simpl orb. cbv iota.
  rewrite Hstrip. unfold Re.size_match.
  rewrite (span_append Re.is_numchar (String c num)
             (ws ++ String a (String b tail))).
  - rewrite lstrip_spaces by assumption.
    rewrite lstrip_head by now apply capital_not_space.
    change (Re.unit_group (String a (String b tail)))
      with (Re.unit_group (String a (String b ""))).
    rewrite Hg, Hv. unfold rbind. now rewrite Hm.
  - simpl. now rewrite Hc, Hnum.
  - destruct ws as [|w ws]; simpl.
    + now apply capital_not_numchar.
    + simpl in Hws. apply andb_true_iff in Hws as [Hw _].
      now apply space_not_numchar.
Qed.

(** A quota written with its period. *)
Lemma parse_size_text_after_unit_witness :
  parse_size (PStr ("2" ++ " " ++ "TB" ++ " per month"))
  = Py.fmul_int (S754_finite false 4503599627370496 (-51)) (1024 ^ 4).
Proof.
  apply parse_size_text_after_unit.
  - discriminate.
  - reflexivity.
  - reflexivity.
  - simpl. auto.
  - reflexivity.
Defined.

(** ** The fields that end a scrape *)

Lemma int_of_str_raise (s : string) (e : exn) :
  Py.int_of_str s = Raise e -> e = ValueError.
Proof.
  unfold Py.int_of_str. destruct (Py.sign (Py.strip_c s)) as [neg body].
  destruct (Py.digitpart body 0) as [[[n k] [|c r]]|]; congruence.
Qed.

Lemma state_of_overflow (x : pyobj) (e : exn) :
  state_of x = Raise e -> e = OverflowError.
Proof.
  unfold state_of.
  destruct x as [| | |f|s| |]; simpl; try discriminate.
  - destruct f as [| | |]; simpl; try discriminate.
    intros H. now injection H as <-.
  - destruct (Py.int_of_str s) as [n|x] eqn:E; [discriminate|].
    rewrite (int_of_str_raise s x E). discriminate.
Qed.

(** X18.  Reading the state raises for one value only, an infinite number,
    with [OverflowError]; any other value gives an integer, zero when [int]
    rejects it. *)
Theorem state_of_raise (x : pyobj) (e : exn) :
  state_of x = Raise e <->
  e = OverflowError /\ exists s, x = PFloat (S754_infinity s).
Proof.
  unfold state_of. split.
  - destruct x as [| | |f|s| |]; simpl; try discriminate.
    + destruct f as [| | |]; simpl; try discriminate.
      intros H. injection H as <-. split; [reflexivity | now exists s].
    + destruct (Py.int_of_str s) as [n|x] eqn:E; [discriminate|].
      rewrite (int_of_str_raise s x E). discriminate.
  - intros [-> [s ->]]. reflexivity.
Qed.

(** X19.  A bandwidth total that is true but not text, a number for one,
    ends the loop body with an exception, always: with [AttributeError],
    since [parse_size] calls [strip] on it, when the state before it was
    read, and with the [OverflowError] of the state when it was not. *)
Theorem size_not_text_aborts (h : string) (d : dict) (fams : families) :
  Obj.truthy (Obj.get d "totalbw") = true ->
  (forall s, Obj.get d "totalbw" <> PStr s) ->
  (forall n,
     state_of (Obj.get_or d "state" (PStr "0")) = Ok n ->
     add_available h d fams = Raise AttributeError)
  /\ (forall e,
        state_of (Obj.get_or d "state" (PStr "0")) = Raise e ->
        e = OverflowError /\ add_available h d fams = Raise OverflowError).
Proof.
  intros Ht Hs. split.
  - intros n Hst. unfold add_available. cbv zeta. rewrite Hst.
    cbn [rbind]. unfold bandwidth_usage, reported. rewrite Ht.
    unfold add_usage, parse_size. rewrite Ht.
    destruct (Obj.get d "totalbw") as [| | | |s| |] eqn:E;
      try reflexivity; try discriminate Ht.
    now destruct (Hs s).
  - intros e Hst. pose proof (state_of_overflow _ _ Hst) as ->.
    split; [reflexivity|].
    unfold add_available. cbv zeta. now rewrite Hst.
Qed.

(** A total given as the number 100, with no state and with an infinite
    state. *)
Lemma size_not_text_aborts_witness :
  fst (collect (Panel.scrape [("success", PStr "1"); ("totalbw", PInt 100)]))
  = Raise AttributeError
  /\ add_available "web" [("success", PStr "1"); ("totalbw", PInt 100)]
       no_samples = Raise AttributeError
  /\ add_available "web"
       [("success", PStr "1"); ("state", PFloat (S754_infinity false));
        ("totalbw", PInt 100)]
       no_samples = Raise OverflowError.
Proof.
  split; [vm_compute; reflexivity|]. split.
  - apply (proj1 (size_not_text_aborts "web"
                    [("success", PStr "1"); ("totalbw", PInt 100)]
                    no_samples eq_refl
                    (fun s H => eq_ind (PInt 100)
                                  (fun x => match x with
                                            | PInt _ => True
                                            | _ => False
                                            end) I _ H)) 0).
    reflexivity.
  - apply (proj2 (size_not_text_aborts "web"
                    [("success", PStr "1");
                     ("state", PFloat (S754_infinity false));
                     ("totalbw", PInt 100)]
                    no_samples eq_refl
                    (fun s H => eq_ind (PInt 100)
                                  (fun x => match x with
                                            | PInt _ => True
                                            | _ => False
                                            end) I _ H)) OverflowError).
    reflexivity.
Defined.

(** ** The sign of a size *)

Section Rounding.

Variables prec emax : Z.

Lemma shr_1_nonneg (mrs : shr_record) :
  0 <= shr_m mrs -> 0 <= shr_m (shr_1 mrs).
Proof.
  destruct mrs as [m r s]. simpl.
  destruct m as [|[p|p|]|p]; simpl; lia.
Qed.

Lemma iter_shr_1_nonneg (p : positive) (mrs : shr_record) :
  0 <= shr_m mrs -> 0 <= shr_m (iter_pos shr_1 p mrs).
Proof.
  revert mrs. induction p as [p IH|p IH|]; intros mrs H; simpl.
  - apply IH, IH. now apply shr_1_nonneg.
  - now apply IH, IH.
  - now apply shr_1_nonneg.
Qed.

Lemma shr_fexp_nonneg (m e : Z) (l : location) :
  0 <= m -> 0 <= shr_m (fst (shr_fexp prec emax m e l)).
Proof.
  intros H. unfold shr_fexp, shr.
  assert (H0 : 0 <= shr_m (shr_record_of_loc m l)).
  { now destruct l as [|[]]. }
  destruct (fexp prec emax (Zdigits2 m + e) - e); simpl;
    [assumption | now apply iter_shr_1_nonneg | assumption].
Qed.

Lemma round_nearest_even_nonneg (m : Z) (l : location) :
  0 <= m -> 0 <= round_nearest_even m l.
Proof.
  intros H. destruct l as [|[]]; simpl; try lia.
  destruct (Z.even m); lia.
Qed.

(** Rounding a number that is not negative gives no negative number and
    no NaN. *)
Lemma binary_round_aux_nonneg (m e : Z) (l : location) :
  0 <= m -> is_nonneg (binary_round_aux prec emax false m e l) = true.
Proof.
  intros H. unfold binary_round_aux.
  pose proof (shr_fexp_nonneg m e l H) as H1.
  destruct (shr_fexp prec emax m e l) as [mrs1 e1]. simpl in H1.
  pose proof (shr_fexp_nonneg
                (round_nearest_even (shr_m mrs1) (loc_of_shr_record mrs1))
                e1 loc_Exact
                (round_nearest_even_nonneg _ _ H1)) as H2.
  destruct (shr_fexp prec emax _ e1 loc_Exact) as [mrs2 e2]. simpl in H2.
  destruct (shr_m mrs2) as [|p|p]; [reflexivity | | lia].
  now destruct (e2 <=? emax - prec).
Qed.

Lemma binary_round_nonneg (p : positive) (e : Z) :
  is_nonneg (binary_round prec emax false p e) = true.
Proof.
  unfold binary_round. destruct (shl_align p e _) as [mz ez].
  apply binary_round_aux_nonneg. lia.
Qed.

End Rounding.

Lemma float_of_decimal_nonneg (m e : Z) :
  is_nonneg (Py.float_of_decimal false m e) = true.
Proof.
  unfold Py.float_of_decimal. destruct m as [|p|p]; try reflexivity.
  destruct (0 <=? e) eqn:He; [apply binary_round_nonneg|].
  apply Z.leb_gt in He.
  unfold SFdiv_core_binary.
  set (s := 0 - 0 - _).
  set (m' := match s with Z0 => Z.pos p | Zpos _ => Z.shiftl (Z.pos p) s
             | Zneg _ => 0 end).
  assert (Hm : 0 <= m').
  { subst m'. destruct s; [lia | | lia]. apply Z.shiftl_nonneg. lia. }
  assert (Hq : 0 <= fst (Z.div_eucl m' (10 ^ (- e)))).
  { change (fst (Z.div_eucl m' (10 ^ (- e)))) with (m' / 10 ^ (- e)).
    apply Z.div_pos; [assumption|]. apply Z.pow_pos_nonneg; lia. }
  destruct (Z.div_eucl m' (10 ^ (- e))) as [q r]. simpl in Hq.
  now apply binary_round_aux_nonneg.
Qed.

Lemma fmul_nonneg (x : Py.float) (m : positive) (e : Z) :
  is_nonneg x = true -> is_nonneg (Py.fmul x (S754_finite false m e)) = true.
Proof.
  unfold Py.fmul, SFmul.
  destruct x as [[]|[]| |[] mx ex]; simpl; try discriminate; try reflexivity.
  intros _. apply binary_round_aux_nonneg. lia.
Qed.

Lemma multiplier_is_positive (unit : string) :
  exists m e,
    Py.float_of_int (multipliers_get multipliers unit (1024 ^ 3))
    = Ok (S754_finite false m e).
Proof.
  unfold multipliers, multipliers_get.
  destruct (String.eqb "KB" unit); [do 2 eexists; vm_compute; reflexivity|].
  destruct (String.eqb "MB" unit); [do 2 eexists; vm_compute; reflexivity|].
  destruct (String.eqb "GB" unit); [do 2 eexists; vm_compute; reflexivity|].
  destruct (String.eqb "TB" unit); do 2 eexists; vm_compute; reflexivity.
Qed.

Lemma span_all (p : ascii -> bool) (s a b : string) :
  Re.span p s = (a, b) -> all_chars p a = true.
Proof.
  revert a b. induction s as [|c s IH]; intros a b; simpl.
  - intros H. now injection H as <- _.
  - destruct (p c) eqn:Hc.
    + destruct (Re.span p s) as [a' b'] eqn:E.
      intros H. injection H as <- _. simpl. now rewrite Hc, (IH a' b').
    + intros H. now injection H as <- _.
Qed.

Lemma numchar_not_space_c (c : ascii) :
  Re.is_numchar c = true -> Py.isspace_c c = false.
Proof. by_bytes c. Qed.

Lemma numchar_not_sign (c : ascii) :
  Re.is_numchar c = true ->
  Ascii.eqb c "-" = false /\ Ascii.eqb c "+" = false.
Proof. by_bytes c. Qed.

Lemma numchar_not_word (c : ascii) :
  Re.is_numchar c = true ->
  Ascii.eqb (Py.to_lower c) "i" = false
  /\ Ascii.eqb (Py.to_lower c) "n" = false.
Proof. by_bytes c. Qed.

Lemma exponent_decimal (neg : bool) (m k : Z) (r : string) (v : Py.float) :
  Py.exponent neg m k r = Ok v ->
  exists m' e, v = Py.float_of_decimal neg m' e.
Proof.
  unfold Py.exponent. destruct r as [|c r].
  - intros H. injection H as <-. now do 2 eexists.
  - destruct (Ascii.eqb (Py.to_lower c) "e"); [|discriminate].
    destruct (Py.sign r) as [eneg ds].
    destruct (Py.digitpart ds 0) as [[[x n] [|a t]]|]; try discriminate.
    intros H. injection H as <-. now do 2 eexists.
Qed.

(** [float] on digits and dots gives the nearest float of a decimal that
    is not negative. *)
Lemma float_of_str_number (num : string) (v : Py.float) :
  num <> EmptyString ->
  all_chars Re.is_numchar num = true ->
  Py.float_of_str num = Ok v ->
  exists m e, v = Py.float_of_decimal false m e.
Proof.
  intros Hne Hnum.
  assert (Hns : all_chars (fun c => negb (Py.isspace_c c)) num = true).
  { apply (all_chars_impl Re.is_numchar); [|assumption].
    intros c Hc. now rewrite (numchar_not_space_c c Hc). }
  destruct num as [|c num]; [contradiction|].
  simpl in Hnum. apply andb_true_iff in Hnum as [Hc _].
  destruct (numchar_not_sign c Hc) as [Hminus Hplus].
  destruct (numchar_not_word c Hc) as [Hi Hn].
  unfold Py.float_of_str, Py.strip_c.
  rewrite (lstrip_no_space _ _ Hns), (rstrip_no_space _ _ Hns).
  unfold Py.sign. rewrite Hminus, Hplus.
  replace (String.eqb (Py.lower (String c num)) "inf") with false
    by (simpl; now rewrite Hi).
  replace (String.eqb (Py.lower (String c num)) "infinity") with false
    by (simpl; now rewrite Hi).
  replace (String.eqb (Py.lower (String c num)) "nan") with false
    by (simpl; now rewrite Hn).
  cbn [orb].
  destruct (Py.digitpart (String c num) 0) as [[[m k] [|a r]]|].
  - apply exponent_decimal.
  - destruct (Ascii.eqb a ".").
    + destruct (Py.digitpart r m) as [[[m' k'] r']|]; apply exponent_decimal.
    + apply exponent_decimal.
  - destruct (Ascii.eqb c "."); [|discriminate].
    destruct (Py.digitpart num 0) as [[[m' k'] r']|]; [|discriminate].
    apply exponent_decimal.
Qed.

(** X6.  A size read from text is never negative and never NaN: it is
    zero, a positive number or plus infinity. *)
Theorem parse_size_nonneg (s : string) (v : Py.float) :
  parse_size (PStr s) = Ok v -> is_nonneg v = true.
Proof.
  unfold parse_size.
  destruct (negb (Obj.truthy (PStr s)) || Obj.eq_str (PStr s) "null").
  { intros H. now injection H as <-. }
  destruct (Re.size_match (Py.strip s)) as [[num unit]|] eqn:Em.
  2:{ intros H. now injection H as <-. }
  assert (Hnum : num <> EmptyString /\ all_chars Re.is_numchar num = true).
  { unfold Re.size_match in Em.
    destruct (Re.span Re.is_numchar (Py.strip s)) as [a b] eqn:Es.
    pose proof (span_all _ _ _ _ Es) as Ha.
    destruct a as [|c a]; [discriminate|].
    injection Em as <- _. split; [discriminate | exact Ha]. }
  destruct Hnum as [Hne Hall].
  destruct (Py.float_of_str num) as [f|x] eqn:Ef; [|discriminate].
  cbn [rbind].
  destruct (float_of_str_number num f Hne Hall Ef) as (m & e & ->).
  destruct (multiplier_is_positive
              (Py.upper match unit with Some u => u | None => "GB" end))
    as (mm & me & Hf).
  unfold Py.fmul_int. rewrite Hf. cbn [rbind].
  intros H. injection H as <-.
  apply fmul_nonneg, float_of_decimal_nonneg.
Qed.

(** The size of the first reference equation. *)
Lemma parse_size_nonneg_witness :
  is_nonneg (S754_finite false 5716756776993423 (-18)) = true.
Proof.
  apply (parse_size_nonneg "20.31 GB"). vm_compute. reflexivity.
Defined.

(** ** The exceptions of a scrape *)

Lemma float_of_str_raise (s : string) (e : exn) :
  Py.float_of_str s = Raise e -> e = ValueError.
Proof.
  assert (Hx : forall neg m k r,
             Py.exponent neg m k r = Raise e -> e = ValueError).
  { intros neg m k r. unfold Py.exponent. destruct r as [|c r];
      [discriminate|].
    destruct (Ascii.eqb (Py.to_lower c) "e"); [|congruence].
    destruct (Py.sign r) as [eneg ds].
    destruct (Py.digitpart ds 0) as [[[x n] [|a t]]|]; congruence. }
  unfold Py.float_of_str.
  destruct (Py.sign (Py.strip_c s)) as [neg body].
  destruct (_ || _); [discriminate|].
  destruct (String.eqb _ "nan"); [discriminate|].
  destruct (Py.digitpart body 0) as [[[m k] [|a r]]|].
  - apply Hx.
  - destruct (Ascii.eqb a ".").
    + destruct (Py.digitpart r m) as [[[m' k'] r']|]; apply Hx.
    + apply Hx.
  - destruct body as [|c r]; [congruence|].
    destruct (Ascii.eqb c "."); [|congruence].
    destruct (Py.digitpart r 0) as [[[m' k'] r']|]; [apply Hx | congruence].
Qed.

Lemma parse_size_raise_kind (x : pyobj) (e : exn) :
  parse_size x = Raise e -> parse_error e = true.
Proof.
  destruct x as [| | | |s| |];
    try (unfold parse_size;
         destruct (_ || _); [discriminate|];
         intros H; now injection H as <-).
  intros H. apply parse_size_raise in H as (_ & num & unit & _ & Hf).
  now rewrite (float_of_str_raise num e Hf).
Qed.

Lemma float_raise_kind (x : pyobj) (e : exn) :
  Obj.float x = Raise e -> parse_error e = true.
Proof.
  assert (Hi : forall n, Py.float_of_int n = Raise e -> parse_error e = true).
  { intros n. unfold Py.float_of_int.
    destruct (binary_normalize _ _ _ _ _); try discriminate.
    intros H. now injection H as <-. }
  destruct x as [|b|n|f|s| |]; simpl;
    try discriminate; try apply Hi;
    try (intros H; now injection H as <-).
  intros H. now rewrite (float_of_str_raise s e H).
Qed.

Lemma add_usage_raise_kind (total used percent : string) (mt mu mp : metric)
    (h : string) (d : dict) (f : families) (e : exn) :
  add_usage total used percent mt mu mp h d f = Raise e ->
  parse_error e = true.
Proof.
  unfold add_usage.
  destruct (parse_size (Obj.get d total)) as [t|x] eqn:Et; cbn [rbind].
  2:{ intros H. injection H as <-. exact (parse_size_raise_kind _ _ Et). }
  destruct (parse_size (Obj.get_or d used (PStr "0"))) as [u|x] eqn:Eu;
    cbn [rbind].
  2:{ intros H. injection H as <-. exact (parse_size_raise_kind _ _ Eu). }
  destruct (Obj.float (Obj.get_or d percent (PStr "0"))) as [p|x] eqn:Ep;
    cbn [rbind]; [discriminate|].
  intros H. injection H as <-. exact (float_raise_kind _ _ Ep).
Qed.

Lemma add_available_raise_kind (h : string) (d : dict) (f : families)
    (e : exn) :
  add_available h d f = Raise e -> parse_error e = true.
Proof.
  unfold add_available. cbv zeta.
  destruct (state_of (Obj.get_or d "state" (PStr "0"))) as [n|x] eqn:Es;
    cbn [rbind].
  2:{ intros H. injection H as <-.
      apply state_of_overflow in Es. now rewrite Es. }
  unfold bandwidth_usage, disk_usage, memory_usage, vswap_usage.
  repeat match goal with
         | |- rbind (if ?b then _ else _) _ = Raise e -> _ =>
             destruct b; cbn [rbind]
         | |- rbind (add_usage ?a1 ?a2 ?a3 ?a4 ?a5 ?a6 ?a7 ?a8 ?a9) _
              = Raise e -> _ =>
             let E := fresh "E" in
             destruct (add_usage a1 a2 a3 a4 a5 a6 a7 a8 a9) eqn:E;
             cbn [rbind];
             [|intros H; injection H as <-;
               exact (add_usage_raise_kind _ _ _ _ _ _ _ _ _ _ E)]
         end;
    try (destruct (reported_not_null d "totalvswap"); [|discriminate]);
    try apply add_usage_raise_kind.
Qed.

Lemma collect_loop_raise_kind (vms : list vm) :
  forall (fams : families) (c : state) (e : exn),
    fst (collect_loop vms fams c) = Raise e -> parse_error e = true.
Proof.
  induction vms as [|v rest IH]; intros fams c e; [discriminate|].
  rewrite collect_loop_cons.
  destruct (get_vm_stats (vm_id v) c) as [stats c1].
  destruct (step v stats fams) as [fams'|x] eqn:Es.
  - apply IH.
  - simpl. intros H. injection H as <-.
    unfold step in Es. destruct stats as [[|kv d]|]; try discriminate.
    exact (add_available_raise_kind _ _ _ _ Es).
Qed.

(** X8.  What ends a scrape with an exception is the reading of a stats
    field: [collect] never raises for a failure of the network or an HTTP
    error status. *)
Theorem collect_raise_kind (c : state) (e : exn) :
  fst (collect c) = Raise e ->
  parse_error e = true /\ e <> HTTPError /\ e <> ConnectionError.
Proof.
  intros H.
  assert (Hp : parse_error e = true).
  { unfold collect in H. unfold bind at 1 in H.
    destruct (get_vms c) as [[|v vms] c1]; [discriminate|].
    unfold bind in H.
    pose proof (collect_loop_raise_kind (v :: vms) no_samples c1 e) as Hl.
    destruct (collect_loop (v :: vms) no_samples c1) as [[fams|x] c2];
      [discriminate|].
    simpl in H. injection H as <-. now apply Hl. }
  split; [exact Hp|]. split; intros ->; discriminate.
Qed.

(** The scrape with a percentage that is no number. *)
Lemma collect_raise_kind_witness :
  fst (collect (Panel.scrape [("success", PStr "1");
                              ("totalbw", PStr "100 GB");
                              ("percentbw", PStr "n/a")]))
  = Raise ValueError
  /\ parse_error ValueError = true.
Proof.
  assert (H : fst (collect (Panel.scrape [("success", PStr "1");
                                          ("totalbw", PStr "100 GB");
                                          ("percentbw", PStr "n/a")]))
              = Raise ValueError).
  { vm_compute. reflexivity. }
  split; [exact H|].
  exact (proj1 (collect_raise_kind _ _ H)).
Defined.

(** ** Invariants of the loop *)

(** What every turn of the loop keeps holds of the families of a scrape
    that ends without exception. *)
Lemma collect_loop_invariant (P : families -> Prop) :
  (forall v stats f g, P f -> step v stats f = Ok g -> P g) ->
  forall (vms : list vm) (fams fams' : families) (c c' : state),
    P fams -> collect_loop vms fams c = (Ok fams', c') -> P fams'.
Proof.
  intros Hstep. induction vms as [|v rest IH]; intros fams fams' c c' HP.
  - simpl. unfold ret. intros H. now injection H as <- _.
  - rewrite collect_loop_cons.
    destruct (get_vm_stats (vm_id v) c) as [stats c1].
    destruct (step v stats fams) as [g|x] eqn:Es; [|discriminate].
    apply IH. exact (Hstep v stats fams g HP Es).
Qed.

Lemma collect_invariant (P : families -> Prop) :
  (forall f g : families, (forall m, f m = g m) -> P g -> P f) ->
  P no_samples ->
  (forall v stats f g, P f -> step v stats f = Ok g -> P g) ->
  forall (c c' : state) (snap : snapshot),
    collect c = (Ok snap, c') -> P (fun m => family m snap).
Proof.
  intros Hext H0 Hstep c c' snap. unfold collect. unfold bind at 1.
  destruct (get_vms c) as [[|v vms] c1].
  - unfold bind, log, ret. simpl. intros H. injection H as <- _. exact H0.
  - unfold bind.
    destruct (collect_loop (v :: vms) no_samples c1) as [[fams|x] c2] eqn:El;
      unfold ret; [|discriminate].
    intros H. injection H as <- _.
    apply (Hext _ fams); [intros m; apply family_yielded|].
    exact (collect_loop_invariant P Hstep _ _ _ _ _ H0 El).
Qed.

Lemma add_usage_ok (total used percent : string) (mt mu mp : metric)
    (h : string) (d : dict) (f g : families) :
  add_usage total used percent mt mu mp h d f = Ok g ->
  exists t u p,
    g = add_metric mp [h] (NFloat p)
          (add_metric mu [h] (NFloat u) (add_metric mt [h] (NFloat t) f)).
Proof.
  unfold add_usage.
  destruct (parse_size (Obj.get d total)) as [t|]; [|discriminate].
  destruct (parse_size (Obj.get_or d used (PStr "0"))) as [u|];
    [|discriminate].
  destruct (Obj.float (Obj.get_or d percent (PStr "0"))) as [p|];
    [|discriminate].
  simpl. intros H. injection H as <-. now exists t, u, p.
Qed.

Lemma complete_triples_ext (f g : families) :
  (forall m, f m = g m) -> complete_triples g -> complete_triples f.
Proof.
  intros E. unfold complete_triples, same_hosts. now rewrite !E.
Qed.

Lemma complete_triples_add_basic (m : metric) (l : list string) (n : number)
    (f : families) :
  is_usage m = false ->
  complete_triples f -> complete_triples (add_metric m l n f).
Proof.
  intros Hm H. destruct m; try discriminate Hm; exact H.
Qed.

Ltac usage_block H :=
  match type of H with
  | (if ?b then _ else _) = Ok _ =>
      destruct b;
      [ apply add_usage_ok in H as (t & u & p & ->)
      | injection H as <- ]
  end.

Ltac triples :=
  unfold complete_triples, same_hosts, add_metric in *;
  cbn [metric_eqb] in *; rewrite ?map_app; cbn [map labels];
  intuition congruence.

Lemma complete_triples_add_available (h : string) (d : dict)
    (f g : families) :
  add_available h d f = Ok g -> complete_triples f -> complete_triples g.
Proof.
  unfold add_available. cbv zeta.
  destruct (state_of (Obj.get_or d "state" (PStr "0"))) as [n|];
    cbn [rbind]; [|discriminate].
  destruct (bandwidth_usage h d _) as [f1|] eqn:E1;
    cbn [rbind]; [|discriminate].
  destruct (disk_usage h d f1) as [f2|] eqn:E2; cbn [rbind]; [|discriminate].
  destruct (memory_usage h d f2) as [f3|] eqn:E3;
    cbn [rbind]; [|discriminate].
  intros E4 H.
  apply (complete_triples_add_basic vm_stats_up [h] (NInt 1)) in H;
    [|reflexivity].
  apply (complete_triples_add_basic vm_state [h] (NInt n)) in H;
    [|reflexivity].
  assert (H1 : complete_triples f1).
  { unfold bandwidth_usage in E1. usage_block E1; [|exact H].
    clear - H. triples. }
  assert (H2 : complete_triples f2).
  { unfold disk_usage in E2. usage_block E2; [|exact H1].
    clear - H1. triples. }
  assert (H3 : complete_triples f3).
  { unfold memory_usage in E3. usage_block E3; [|exact H2].
    clear - H2. triples. }
  unfold vswap_usage in E4. usage_block E4; [|exact H3].
  clear - H3. triples.
Qed.

Lemma complete_triples_step (v : vm) (stats : option dict)
    (f g : families) :
  complete_triples f -> step v stats f = Ok g -> complete_triples g.
Proof.
  intros H. unfold step, add_unavailable, add_info.
  destruct stats as [[|kv d]|].
  - intros E. injection E as <-.
    now repeat (apply complete_triples_add_basic; [reflexivity|]).
  - intros E. apply (complete_triples_add_available _ _ _ _ E).
    now apply complete_triples_add_basic.
  - intros E. injection E as <-.
    now repeat (apply complete_triples_add_basic; [reflexivity|]).
Qed.

(** X9.  In the snapshot of a scrape that ends without exception, the
    total, used and percent families of each of the four usage groups have
    samples for the same hosts, in the same order: no VM has part of a
    usage triple. *)
Theorem collect_complete_triples (c c' : state) (snap : snapshot) :
  collect c = (Ok snap, c') ->
  complete_triples (fun m => family m snap).
Proof.
  apply (collect_invariant complete_triples).
  - exact complete_triples_ext.
  - now repeat split.
  - exact complete_triples_step.
Qed.

(** The scrape of two VMs, one with bandwidth figures and one without
    stats. *)
Lemma collect_complete_triples_witness :
  complete_triples
    (fun m => family m
       [(vm_info,
         [{| labels := ["web"; "192.0.2.10"; "Debian 12"; "kvm"]%string;
             value := NInt 1 |};
          {| labels := ["db"; "192.0.2.10"; "Debian 12"; "openvz"]%string;
             value := NInt 1 |}]);
        (vm_state,
         [{| labels := ["web"%string]; value := NInt 1 |};
          {| labels := ["db"%string]; value := NInt 0 |}]);
        (vm_stats_up,
         [{| labels := ["web"%string]; value := NInt 1 |};
          {| labels := ["db"%string]; value := NInt 0 |}]);
        (bandwidth_total,
         [{| labels := ["web"%string];
             value := NFloat (S754_finite false 7036874417766400 (-16)) |}]);
        (bandwidth_used,
         [{| labels := ["web"%string];
             value := NFloat (S754_finite false 5910974510923776 (-17)) |}]);
        (bandwidth_percent,
         [{| labels := ["web"%string];
             value := NFloat (S754_finite false 5910974510923776 (-47)) |}]);
        (disk_total, []); (disk_used, []); (disk_percent, []);
        (memory_total, []); (memory_used, []); (memory_percent, []);
        (vswap_total, []); (vswap_used, []); (vswap_percent, [])]).
Proof.
  apply (collect_complete_triples two_vm_scrape (snd (collect two_vm_scrape))).
  vm_compute. reflexivity.
Defined.

Lemma sound_availability_ext (f g : families) :
  (forall m, f m = g m) -> sound_availability g -> sound_availability f.
Proof.
  intros E. unfold sound_availability. now rewrite !E.
Qed.

Lemma sound_availability_snoc (f g : families) (info up st : sample) :
  g vm_info = f vm_info ++ [info] ->
  g vm_stats_up = f vm_stats_up ++ [up] ->
  g vm_state = f vm_state ++ [st] ->
  value info = NInt 1 -> availability_state up st ->
  sound_availability f -> sound_availability g.
Proof.
  intros Ei Eu Es Hi Hs [H1 H2]. unfold sound_availability.
  rewrite Ei, Eu, Es. split.
  - apply Forall_app. split; [exact H1|]. now constructor.
  - apply Forall2_app; [exact H2|]. now constructor.
Qed.

Lemma sound_availability_step (v : vm) (stats : option dict)
    (f g : families) :
  sound_availability f -> step v stats f = Ok g -> sound_availability g.
Proof.
  intros H. unfold step.
  assert (Hun : sound_availability
                  (add_unavailable (hostname v) (add_info v f))).
  { apply (sound_availability_snoc f _ (info_sample v)
             (host_sample v 0) (host_sample v 0));
      try reflexivity; [|exact H].
    repeat split. now left. }
  destruct stats as [[|kv d]|].
  - intros E. now injection E as <-.
  - intros E.
    destruct (add_available_core _ _ _ _ E) as (Hi & Hu & n & _ & Hn).
    apply (sound_availability_snoc f _ (info_sample v)
             (host_sample v 1) (host_sample v n));
      [now rewrite Hi | exact Hu | exact Hn | reflexivity | | exact H].
    repeat split; [now right | discriminate].
  - intros E. now injection E as <-.
Qed.

(** X10.  In the snapshot of a scrape that ends without exception, every
    [vm_info] sample is 1; the availability and state families go host by
    host; an availability is 0 or 1; and a VM whose availability is 0 has
    state 0. *)
Theorem collect_sound_availability (c c' : state) (snap : snapshot) :
  collect c = (Ok snap, c') ->
  sound_availability (fun m => family m snap).
Proof.
  apply (collect_invariant sound_availability).
  - exact sound_availability_ext.
  - split; constructor.
  - exact sound_availability_step.
Qed.

(** The scrape of one VM whose stats fetch fails. *)
Lemma collect_sound_availability_witness :
  sound_availability
    (fun m => family m
       (map (fun m' =>
               (m', add_unavailable "web"
                      (add_metric vm_info
                         ["web"; "192.0.2.10"; "Debian 12"; "kvm"]%string
                         (NInt 1) no_samples) m'))
          yielded)).
Proof.
  apply (collect_sound_availability
           (Panel.scrape [("success", PStr "0")])
           (snd (collect (Panel.scrape [("success", PStr "0")])))).
  vm_compute. reflexivity.
Defined.

(** ** The base URL *)

Lemma append_length (s t : string) :
  String.length (s ++ t) = (String.length s + String.length t)%nat.
Proof. induction s as [|c s IH]; simpl; [reflexivity | now rewrite IH]. Qed.

(** X16.  Slashes at the end of the configured URL are dropped, however
    many: the client sends the same requests to the same URLs, and no
    base URL ends with a slash. *)
Theorem base_url_trailing_slashes (u w : string) :
  all_chars is_slash w = true ->
  base_url (u ++ w) = base_url u
  /\ (forall rq, request_url (base_url (u ++ w)) rq
                 = request_url (base_url u) rq)
  /\ (forall t, base_url (u ++ w) <> (t ++ "/")%string).
Proof.
  intros Hw.
  assert (E : base_url (u ++ w) = base_url u)
    by (unfold base_url; now apply rstrip_pad).
  split; [exact E|]. split; [intros rq; now rewrite E|].
  intros t Ht. rewrite E in Ht.
  pose proof (rstrip_idem is_slash u) as Hi.
  fold (base_url u) in Hi. rewrite Ht in Hi.
  rewrite (rstrip_pad is_slash t "/" eq_refl) in Hi.
  pose proof (rstrip_length is_slash t) as Hl.
  rewrite Hi, append_length in Hl. simpl in Hl. lia.
Qed.

(** A panel address written with two slashes at its end. *)
Lemma base_url_trailing_slashes_witness :
  base_url "https://nerdvm.racknerd.com//"
  = "https://nerdvm.racknerd.com"%string
  /\ request_url (base_url "https://nerdvm.racknerd.com//") PostLogin
     = "https://nerdvm.racknerd.com/login.php"%string.
Proof.
  destruct (base_url_trailing_slashes "https://nerdvm.racknerd.com" "//"
              eq_refl) as (E & R & _).
  split; [exact E|]. exact (R PostLogin).
Defined.

(** ** The stats requests of a scrape *)

Lemma stats_ids_app (l1 l2 : list request) :
  stats_ids (l1 ++ l2) = stats_ids l1 ++ stats_ids l2.
Proof.
  induction l1 as [|[| |id] l1 IH]; simpl; [reflexivity | exact IH ..|].
  now rewrite IH.
Qed.

Lemma subseq_nil_l {A} (l : list A) : subseq [] l.
Proof. induction l; now constructor. Qed.

Lemma quiet_ret {A} (a : A) : quiet (ret a).
Proof. intros c. exists []. now rewrite app_nil_r. Qed.

Lemma quiet_bind {A B} (m : M A) (k : A -> M B) :
  quiet m -> (forall a, quiet (k a)) -> quiet (bind m k).
Proof.
  intros Hm Hk c. unfold bind.
  destruct (Hm c) as (l1 & E1 & Q1).
  destruct (m c) as [a c1]. cbn [snd] in E1.
  destruct (Hk a c1) as (l2 & E2 & Q2).
  exists (l1 ++ l2). rewrite E2, E1, app_assoc, stats_ids_app, Q1, Q2.
  now split.
Qed.

Lemma quiet_log (r : record) : quiet (log r).
Proof. intros c. exists []. now rewrite app_nil_r. Qed.

Lemma quiet_set_logged_in (b : bool) : quiet (set_logged_in b).
Proof. intros c. exists []. now rewrite app_nil_r. Qed.

Lemma quiet_get_logged_in : quiet get_logged_in.
Proof. intros c. exists []. now rewrite app_nil_r. Qed.

Lemma quiet_get_home : quiet (http GetHome).
Proof.
  intros c. exists [GetHome]. unfold http. now destruct (pending c).
Qed.

Lemma quiet_post_login : quiet (http PostLogin).
Proof.
  intros c. exists [PostLogin]. unfold http. now destruct (pending c).
Qed.

Create HintDb quiet.
#[local] Hint Resolve quiet_ret quiet_log quiet_set_logged_in
  quiet_get_logged_in quiet_get_home quiet_post_login : quiet.

Ltac quiet_step :=
  match goal with
  | |- quiet (bind _ _) => apply quiet_bind; [|intros ?]
  | |- quiet (match ?x with _ => _ end) => destruct x
  | |- quiet (let _ := _ in _) => cbv zeta
  | |- quiet _ => solve [auto with quiet]
  end.

Lemma quiet_is_logged_in : quiet is_logged_in.
Proof. unfold is_logged_in. repeat quiet_step. Qed.

Lemma quiet_login_except (e : exn) : quiet (login_except e).
Proof. unfold login_except. repeat quiet_step. Qed.

#[local] Hint Resolve quiet_is_logged_in quiet_login_except : quiet.

Lemma quiet_login : quiet login.
Proof. unfold login. repeat quiet_step. Qed.

#[local] Hint Resolve quiet_login : quiet.

Lemma quiet_ensure_logged_in : quiet ensure_logged_in.
Proof. unfold ensure_logged_in. repeat quiet_step. Qed.

#[local] Hint Resolve quiet_ensure_logged_in : quiet.

Lemma quiet_get_vms_body (retry : M (list vm)) :
  quiet retry -> quiet (get_vms_body retry).
Proof. intros H. unfold get_vms_body. repeat quiet_step. Qed.

Lemma quiet_get_vms_rec (fuel : nat) : quiet (get_vms_rec fuel).
Proof.
  induction fuel as [|fuel IH]; simpl; apply quiet_get_vms_body;
    [apply quiet_ret | exact IH].
Qed.

Lemma quiet_get_vms : quiet get_vms.
Proof. intros c. unfold get_vms. apply quiet_get_vms_rec. Qed.

Lemma asks_quiet {A} (id : string) (m : M A) : quiet m -> asks id m.
Proof.
  intros H c. destruct (H c) as (l & E & Q). exists l. split; [exact E|].
  now left.
Qed.

Lemma asks_get_vm_stats (id : string) : asks id (get_vm_stats id).
Proof.
  intros c. unfold get_vm_stats. unfold bind at 1.
  destruct (quiet_ensure_logged_in c) as (l1 & E1 & Q1).
  destruct (ensure_logged_in c) as [ok c1]. cbn [snd] in E1.
  destruct ok; cbn [negb].
  2:{ exists l1. split; [exact E1 | now left]. }
  unfold bind at 1.
  destruct (http (PostStats id) c1) as [r c2] eqn:Eh.
  assert (E2 : sent c2 = sent c1 ++ [PostStats id]).
  { unfold http in Eh. destruct (pending c1); now injection Eh as <- <-. }
  match goal with
  | |- exists l, sent (snd (?k c2)) = _ /\ _ =>
      assert (Q : exists l2, sent (snd (k c2)) = sent c2 ++ l2
                             /\ stats_ids l2 = [])
  end.
  { destruct r as [reply|e]; [|apply quiet_bind; auto with quiet].
    destruct (raise_for_status reply) as [[]|e];
      [|apply quiet_bind; auto with quiet].
    destruct (json reply) as [[| | | | | |data]|];
      try (apply quiet_bind; auto with quiet).
    destruct (Obj.eq_str (Obj.get data "success") "1");
      [apply quiet_ret | apply quiet_bind; auto with quiet]. }
  destruct Q as (l2 & E3 & Q2).
  exists (l1 ++ [PostStats id] ++ l2). split.
  { etransitivity; [exact E3|]. now rewrite E2, E1, <- !app_assoc. }
  right. rewrite !stats_ids_app, Q1, Q2. reflexivity.
Qed.

Lemma collect_loop_stats_requests (vms : list vm) :
  forall (fams : families) (c : state),
  exists l,
    sent (snd (collect_loop vms fams c)) = sent c ++ l
    /\ subseq (stats_ids l) (map vm_id vms).
Proof.
  induction vms as [|v rest IH]; intros fams c.
  - exists []. rewrite app_nil_r. split; [reflexivity | constructor].
  - rewrite collect_loop_cons.
    destruct (asks_get_vm_stats (vm_id v) c) as (l1 & E1 & Q1).
    destruct (get_vm_stats (vm_id v) c) as [stats c1]. cbn [snd] in E1.
    assert (Hone : subseq (stats_ids l1) (vm_id v :: map vm_id rest)).
    { destruct Q1 as [-> | ->]; [apply subseq_nil_l|].
      apply subseq_keep, subseq_nil_l. }
    destruct (step v stats fams) as [g|x].
    + destruct (IH g (after_vm v stats c1)) as (l2 & E2 & Q2).
      assert (Ea : sent (after_vm v stats c1) = sent c1)
        by now destruct stats as [[|kv d]|].
      exists (l1 ++ l2). rewrite E2, Ea, E1, app_assoc. split; [reflexivity|].
      rewrite stats_ids_app. simpl.
      destruct Q1 as [-> | ->]; simpl; now constructor.
    + exists l1. split; [exact E1 | exact Hone].
Qed.

(** X20.  The stats requests of a scrape are for listed VMs only, in the
    order of the listing, and at most one for each place in the listing:
    the ids asked for are the ids of the listing with some left out. *)
Theorem collect_stats_requests (c : state) :
  exists l,
    sent (snd (collect c)) = sent c ++ l
    /\ subseq (stats_ids l) (map vm_id (fst (get_vms c))).
Proof.
  unfold collect. unfold bind at 1.
  destruct (quiet_get_vms c) as (l0 & E0 & Q0).
  destruct (get_vms c) as [vms c1]. cbn [fst snd] in *.
  destruct vms as [|v vms].
  - exists l0. unfold bind, log, ret. cbn [snd sent]. split; [exact E0|].
    rewrite Q0. constructor.
  - unfold bind.
    destruct (collect_loop_stats_requests (v :: vms) no_samples c1)
      as (l & E & Q).
    destruct (collect_loop (v :: vms) no_samples c1) as [[fams|x] c2];
      cbn [snd] in E; unfold ret; cbn [snd];
      (exists (l0 ++ l); rewrite E, E0, app_assoc; split; [reflexivity|];
       now rewrite stats_ids_app, Q0).
Qed.
